(** * A personal book library: collection store and derived views

  Shallow embedding of the two React pages of the repository:

  - [Library]: the rich page (component [BookLibrary]), whose records carry
    an id, genre, year, description, status, optional rating and the date
    they were added;
  - [Minimal]: the minimal page ([src/app/page.tsx]), whose records carry
    only title, author and an optional rating.

  React state is modelled by explicit state passing: every handler is a
  function from the component state (and the readings of the clock it
  takes) to the next component state.

  JavaScript strings are modelled by [string]: sequences of code units
  below 256 (Latin-1 text).  JavaScript numbers are modelled by [Z]: the
  numbers of these pages are integers (years, ratings, clock readings in
  milliseconds), printed in plain decimal as JavaScript does for integers
  of magnitude below 1e21.  Where a property depends on a number that is
  no integer, [InMemory] has the books with [Infinity] and [NaN] among
  their numbers; where one depends on text beyond Latin-1, [Utf16] has the
  search on UTF-16 code units. *)

From Stdlib Require Import ZArith List String Ascii Bool Lia Permutation.
From Stdlib Require Import DecimalString DecimalFacts DecimalPos DecimalZ.
Import ListNotations.

Open Scope string_scope.

(** ** The parts of the JavaScript runtime the pages call *)

Module JS.

(** [String.prototype.toLowerCase], one code unit at a time: on Latin-1
    text the capitals are A-Z and U+00C0-U+00DE without the multiplication
    sign U+00D7, and each maps to the code unit 32 above it.  Text beyond
    Latin-1, where the lower case of a letter may depend on its neighbours
    (the capital sigma at the end of a word), is not modelled. *)
Definition lowerUnit (c : ascii) : ascii :=
  let n := N_of_ascii c in
  if ((65 <=? n) && (n <=? 90) || (192 <=? n) && (n <=? 222) && negb (n =? 215))%N
  then ascii_of_N (n + 32)
  else c.

Fixpoint toLowerCase (s : string) : string :=
  match s with
  | EmptyString => EmptyString
  | String c r => String (lowerUnit c) (toLowerCase r)
  end.

(** [s.startsWith(t)]. *)
Fixpoint startsWith (s t : string) {struct t} : bool :=
  match t, s with
  | EmptyString, _ => true
  | String _ _, EmptyString => false
  | String b t', String a s' => Ascii.eqb a b && startsWith s' t'
  end.

(** [s.includes(t)]: [t] occurs in [s] at some position. *)
Fixpoint includes (s t : string) : bool :=
  match s with
  | EmptyString => startsWith EmptyString t
  | String _ s' => startsWith s t || includes s' t
  end.

(** Truthiness of a string: only the empty string is falsy. *)
Definition truthy (s : string) : bool :=
  match s with
  | EmptyString => false
  | String _ _ => true
  end.

(** [Number.prototype.toString] and the number case of [JSON.stringify],
    on an integer: decimal digits, a minus sign in front of a negative
    one. *)
Definition Number_toString (z : Z) : string :=
  NilZero.string_of_int (Z.to_int z).

End JS.

(** ** [JSON.stringify] and [JSON.parse]

  Both pages keep their collection in the [localStorage] slot ["books"] as
  JSON text.  [stringify] prints a value the way [JSON.stringify] does
  (no white space, the short escapes where they exist, [\u00XX] for the
  other control characters).  [parse] accepts the JSON grammar; a text
  that is well formed but denotes a value outside the model (a number with
  a fraction or an exponent, a string with an escape above U+00FF) is
  reported as such, apart from the texts [JSON.parse] refuses. *)

Module JSON.

#[warnings="-register-all"]
Inductive value : Type :=
| JNull
| JBool (b : bool)
| JNum (z : Z)
| JStr (s : string)
| JArr (items : list value)
| JObj (members : list (string * value)).

Definition dquote : ascii := "034"%char.
Definition backslash : ascii := "092"%char.

(** *** Printing *)

Definition hexDigit (n : N) : ascii :=
  ascii_of_N (if (n <? 10)%N then 48 + n else 87 + n).

Definition escapeUnit (c : ascii) : string :=
  let n := N_of_ascii c in
  if (n =? 34)%N then String backslash (String dquote "")
  else if (n =? 92)%N then String backslash (String backslash "")
  else if (n =? 8)%N then String backslash "b"
  else if (n =? 9)%N then String backslash "t"
  else if (n =? 10)%N then String backslash "n"
  else if (n =? 12)%N then String backslash "f"
  else if (n =? 13)%N then String backslash "r"
  else if (n <? 32)%N then
    String backslash
      (String "u" (String "0" (String "0"
         (String (hexDigit (n / 16)) (String (hexDigit (n mod 16)) "")))))
  else String c "".

Fixpoint escape (s : string) : string :=
  match s with
  | EmptyString => ""
  | String c r => escapeUnit c ++ escape r
  end.

Definition quote (s : string) : string :=
  String dquote (escape s ++ String dquote "").

Fixpoint join (sep : string) (l : list string) : string :=
  match l with
  | [] => ""
  | x :: r =>
      match r with
      | [] => x
      | _ :: _ => x ++ sep ++ join sep r
      end
  end.

Definition printMember (print : value -> string) (m : string * value) : string :=
  quote (fst m) ++ ":" ++ print (snd m).

Fixpoint stringify (v : value) : string :=
  match v with
  | JNull => "null"
  | JBool true => "true"
  | JBool false => "false"
  | JNum z => JS.Number_toString z
  | JStr s => quote s
  | JArr items => "[" ++ join "," (map stringify items) ++ "]"
  | JObj members => "{" ++ join "," (map (printMember stringify) members) ++ "}"
  end.

(** *** Parsing *)

Inductive Outcome (A : Type) : Type :=
| Parsed (a : A)
| SyntaxError
| NoFuel.
Arguments Parsed {A} a.
Arguments SyntaxError {A}.
Arguments NoFuel {A}.

Notation "' p <- e ;; k" :=
  (match e with
   | Parsed p => k
   | SyntaxError => SyntaxError
   | NoFuel => NoFuel
   end)
  (at level 100, p pattern, e at next level, right associativity).

Definition isWhitespace (c : ascii) : bool :=
  let n := N_of_ascii c in
  ((n =? 32) || (n =? 9) || (n =? 10) || (n =? 13))%N.

Fixpoint skipWhitespace (s : string) : string :=
  match s with
  | EmptyString => ""
  | String c r => if isWhitespace c then skipWhitespace r else s
  end.

Definition isDigit (c : ascii) : bool :=
  let n := N_of_ascii c in ((48 <=? n) && (n <=? 57))%N.

(** The longest run of digits in front of [s], and what follows it. *)
Fixpoint digits (s : string) : string * string :=
  match s with
  | EmptyString => ("", "")
  | String c r =>
      if isDigit c then let (ds, rest) := digits r in (String c ds, rest)
      else ("", s)
  end.

(** [0], or a digit from 1 to 9 and the digits after it. *)
Definition integerPart (s : string) : Outcome (string * string) :=
  match s with
  | EmptyString => SyntaxError
  | String c r =>
      if Ascii.eqb c "0" then Parsed ("0", r)
      else if isDigit c then let (ds, rest) := digits r in Parsed (String c ds, rest)
      else SyntaxError
  end.

Definition fraction (s : string) : Outcome (bool * string) :=
  match s with
  | EmptyString => Parsed (false, s)
  | String c r =>
      if Ascii.eqb c "." then
        match digits r with
        | (EmptyString, _) => SyntaxError
        | (String _ _, rest) => Parsed (true, rest)
        end
      else Parsed (false, s)
  end.

Definition exponent (s : string) : Outcome (bool * string) :=
  match s with
  | EmptyString => Parsed (false, s)
  | String c r =>
      if Ascii.eqb c "e" || Ascii.eqb c "E" then
        let r' := match r with
                  | EmptyString => r
                  | String sg r2 =>
                      if Ascii.eqb sg "+" || Ascii.eqb sg "-" then r2 else r
                  end in
        match digits r' with
        | (EmptyString, _) => SyntaxError
        | (String _ _, rest) => Parsed (true, rest)
        end
      else Parsed (false, s)
  end.

Definition integerValue (negative : bool) (ds : string) : option Z :=
  match NilEmpty.uint_of_string ds with
  | Some u => Some (if negative then (- Z.of_uint u)%Z else Z.of_uint u)
  | None => None
  end.

(** A number; [None] for one with a fraction or an exponent. *)
Definition number (s : string) : Outcome (option Z * string) :=
  let (negative, s1) :=
    match s with
    | EmptyString => (false, s)
    | String c r => if Ascii.eqb c "-" then (true, r) else (false, s)
    end in
  '(ds, s2) <- integerPart s1 ;;
  '(hasFraction, s3) <- fraction s2 ;;
  '(hasExponent, s4) <- exponent s3 ;;
  Parsed (if hasFraction || hasExponent then None else integerValue negative ds, s4).

Definition hexValue (c : ascii) : option N :=
  let n := N_of_ascii c in
  if isDigit c then Some (n - 48)%N
  else if ((97 <=? n) && (n <=? 102))%N then Some (n - 87)%N
  else if ((65 <=? n) && (n <=? 70))%N then Some (n - 55)%N
  else None.

(** The character a backslash and [c] stand for, [\u] apart. *)
Definition simpleEscape (c : ascii) : option ascii :=
  let n := N_of_ascii c in
  if (n =? 34)%N then Some dquote
  else if (n =? 92)%N then Some backslash
  else if (n =? 47)%N then Some "/"%char
  else if (n =? 98)%N then Some "008"%char
  else if (n =? 102)%N then Some "012"%char
  else if (n =? 110)%N then Some "010"%char
  else if (n =? 114)%N then Some "013"%char
  else if (n =? 116)%N then Some "009"%char
  else None.

Definition push (c : option ascii) (r : Outcome (option string * string))
  : Outcome (option string * string) :=
  '(s, rest) <- r ;;
  Parsed (match c, s with
          | Some c, Some s => Some (String c s)
          | _, _ => None
          end, rest).

(** A string after its opening quote, up to and with the closing one;
    [None] for a string with a code unit above 255. *)
Fixpoint stringBody (s : string) : Outcome (option string * string) :=
  match s with
  | EmptyString => SyntaxError
  | String c r =>
      let n := N_of_ascii c in
      if (n =? 34)%N then Parsed (Some "", r)
      else if (n =? 92)%N then
        match r with
        | EmptyString => SyntaxError
        | String e r1 =>
            if Ascii.eqb e "u" then
              match r1 with
              | String h1 (String h2 (String h3 (String h4 r2))) =>
                  match hexValue h1, hexValue h2, hexValue h3, hexValue h4 with
                  | Some a, Some b, Some c, Some d =>
                      let u := (((a * 16 + b) * 16 + c) * 16 + d)%N in
                      push (if (u <? 256)%N then Some (ascii_of_N u) else None)
                           (stringBody r2)
                  | _, _, _, _ => SyntaxError
                  end
              | _ => SyntaxError
              end
            else
              match simpleEscape e with
              | Some x => push (Some x) (stringBody r1)
              | None => SyntaxError
              end
        end
      else if (n <? 32)%N then SyntaxError
      else push (Some c) (stringBody r)
  end.

(** [s] without [word] in front of it, when it starts with [word]. *)
Fixpoint dropPrefix (word s : string) : option string :=
  match word with
  | EmptyString => Some s
  | String a w =>
      match s with
      | EmptyString => None
      | String b r => if Ascii.eqb a b then dropPrefix w r else None
      end
  end.

Definition literal (word : string) (v : value) (s : string)
  : Outcome (option value * string) :=
  match dropPrefix word s with
  | Some rest => Parsed (Some v, rest)
  | None => SyntaxError
  end.

Definition snoc {A : Type} (x : option A) (acc : option (list A)) : option (list A) :=
  match x, acc with
  | Some x, Some l => Some (x :: l)
  | _, _ => None
  end.

Definition member (k : option string) (v : option value) : option (string * value) :=
  match k, v with
  | Some k, Some v => Some (k, v)
  | _, _ => None
  end.

(** Recursive descent; [fuel] bounds the number of nested calls, and
    [parse] below gives enough of it for any text. *)
Fixpoint parseValue (fuel : nat) (s : string) {struct fuel}
  : Outcome (option value * string) :=
  match fuel with
  | O => NoFuel
  | S fuel =>
      match skipWhitespace s with
      | EmptyString => SyntaxError
      | String c r =>
          if Ascii.eqb c "{" then
            match skipWhitespace r with
            | EmptyString => SyntaxError
            | String c1 r1 =>
                if Ascii.eqb c1 "}" then Parsed (Some (JObj []), r1)
                else parseMembers fuel (String c1 r1) (Some [])
            end
          else if Ascii.eqb c "[" then
            match skipWhitespace r with
            | EmptyString => SyntaxError
            | String c1 r1 =>
                if Ascii.eqb c1 "]" then Parsed (Some (JArr []), r1)
                else parseElements fuel (String c1 r1) (Some [])
            end
          else if Ascii.eqb c dquote then
            '(x, rest) <- stringBody r ;; Parsed (option_map JStr x, rest)
          else if Ascii.eqb c "t" then literal "true" (JBool true) (String c r)
          else if Ascii.eqb c "f" then literal "false" (JBool false) (String c r)
          else if Ascii.eqb c "n" then literal "null" JNull (String c r)
          else
            '(z, rest) <- number (String c r) ;; Parsed (option_map JNum z, rest)
      end
  end

with parseElements (fuel : nat) (s : string) (acc : option (list value))
                   {struct fuel}
  : Outcome (option value * string) :=
  match fuel with
  | O => NoFuel
  | S fuel =>
      '(v, r) <- parseValue fuel s ;;
      match skipWhitespace r with
      | EmptyString => SyntaxError
      | String c r1 =>
          if Ascii.eqb c "," then parseElements fuel r1 (snoc v acc)
          else if Ascii.eqb c "]"
          then Parsed (option_map (fun l => JArr (rev l)) (snoc v acc), r1)
          else SyntaxError
      end
  end

with parseMembers (fuel : nat) (s : string) (acc : option (list (string * value)))
                  {struct fuel}
  : Outcome (option value * string) :=
  match fuel with
  | O => NoFuel
  | S fuel =>
      match skipWhitespace s with
      | EmptyString => SyntaxError
      | String c r =>
          if Ascii.eqb c dquote then
            '(k, r1) <- stringBody r ;;
            match skipWhitespace r1 with
            | EmptyString => SyntaxError
            | String c1 r2 =>
                if Ascii.eqb c1 ":" then
                  '(v, r3) <- parseValue fuel r2 ;;
                  match skipWhitespace r3 with
                  | EmptyString => SyntaxError
                  | String c2 r4 =>
                      if Ascii.eqb c2 ","
                      then parseMembers fuel r4 (snoc (member k v) acc)
                      else if Ascii.eqb c2 "}"
                      then Parsed (option_map (fun l => JObj (rev l))
                                              (snoc (member k v) acc), r4)
                      else SyntaxError
                  end
                else SyntaxError
            end
          else SyntaxError
      end
  end.

(** What a call of [JSON.parse] does. *)
Inductive Parse : Type :=
| Returns (v : value)
| ReturnsUnmodelled
| Throws.

Definition parse (text : string) : Parse :=
  match parseValue (2 * length text + 2) text with
  | Parsed (v, rest) =>
      match skipWhitespace rest, v with
      | EmptyString, Some v => Returns v
      | EmptyString, None => ReturnsUnmodelled
      | String _ _, _ => Throws
      end
  | SyntaxError => Throws
  | NoFuel => Throws (* never the case: [parse_never_out_of_fuel] *)
  end.

(** Property lookup on a parsed object: of two members with one key
    [JSON.parse] keeps the later. *)
Fixpoint get (key : string) (members : list (string * value)) : option value :=
  match members with
  | [] => None
  | (k, v) :: r =>
      match get key r with
      | Some v' => Some v'
      | None => if String.eqb k key then Some v else None
      end
  end.

(** What may follow a number in a text: anything but a character that
    would make the number go on. *)
Definition endsNumber (rest : string) : bool :=
  match rest with
  | EmptyString => true
  | String c _ =>
      negb (isDigit c || Ascii.eqb c "." || Ascii.eqb c "e" || Ascii.eqb c "E")
  end.

(** [v], printed and followed by [rest], is read back as [v], and [rest]
    is left. *)
Definition ReadsBack (v : value) : Prop :=
  forall (fuel : nat) (rest : string),
    String.length (stringify v) <= fuel ->
    endsNumber rest = true ->
    parseValue fuel (stringify v ++ rest) = Parsed (Some v, rest).

(** The digits start with one from 1 to 9. *)
Definition leadsNonzero (u : Decimal.uint) : bool :=
  match u with
  | Decimal.Nil | Decimal.D0 _ => false
  | _ => true
  end.

End JSON.

(** ** The rich page: component [BookLibrary] *)

Module Library.

(** [status: "read" | "reading" | "to-read"]. *)
Inductive Status : Type := read | reading | to_read.

Definition Status_value (s : Status) : string :=
  match s with
  | read => "read"
  | reading => "reading"
  | to_read => "to-read"
  end.

(** [interface Book]; [rating?: number] is [None] when undefined. *)
Record Book : Type := mkBook
  { id : string;
    title : string;
    author : string;
    genre : string;
    year : Z;
    description : string;
    status : Status;
    rating : option Z;
    dateAdded : string }.

(** The [formData] state: the fields of a book the forms edit. *)
Module Form.
Record t : Type := mk
  { title : string;
    author : string;
    genre : string;
    year : Z;
    description : string;
    status : Status;
    rating : option Z }.
End Form.

(** What a handler reads from the clock: [Date.now()], the date part of
    [new Date().toISOString()] and [new Date().getFullYear()]. *)
Record Clock : Type := mkClock
  { now : Z;
    isoDate : string;
    fullYear : Z }.

(** The state of the component, one field per [useState]. *)
Record State : Type := mkState
  { books : list Book;
    searchTerm : string;
    filterGenre : string;
    filterStatus : string;
    isAddDialogOpen : bool;
    isEditDialogOpen : bool;
    editingBook : option Book;
    formData : Form.t }.

Definition setBooks (f : list Book -> list Book) (st : State) : State :=
  mkState (f (books st)) (searchTerm st) (filterGenre st) (filterStatus st)
          (isAddDialogOpen st) (isEditDialogOpen st) (editingBook st) (formData st).

Definition setIsAddDialogOpen (b : bool) (st : State) : State :=
  mkState (books st) (searchTerm st) (filterGenre st) (filterStatus st)
          b (isEditDialogOpen st) (editingBook st) (formData st).

Definition setIsEditDialogOpen (b : bool) (st : State) : State :=
  mkState (books st) (searchTerm st) (filterGenre st) (filterStatus st)
          (isAddDialogOpen st) b (editingBook st) (formData st).

Definition setEditingBook (e : option Book) (st : State) : State :=
  mkState (books st) (searchTerm st) (filterGenre st) (filterStatus st)
          (isAddDialogOpen st) (isEditDialogOpen st) e (formData st).

Definition setFormData (fd : Form.t) (st : State) : State :=
  mkState (books st) (searchTerm st) (filterGenre st) (filterStatus st)
          (isAddDialogOpen st) (isEditDialogOpen st) (editingBook st) fd.

Definition blankForm (clk : Clock) : Form.t :=
  Form.mk "" "" "" (fullYear clk) "" to_read None.

(** The state of the first render. *)
Definition initialState (clk : Clock) : State :=
  mkState [] "" "Fiction" "to-read" false false None (blankForm clk).

Definition resetForm (clk : Clock) (st : State) : State :=
  setFormData (blankForm clk) st.

(** [!formData.title || !formData.author || !formData.genre]. *)
Definition missingRequired (fd : Form.t) : bool :=
  negb (JS.truthy (Form.title fd))
  || negb (JS.truthy (Form.author fd))
  || negb (JS.truthy (Form.genre fd)).

(** [{ id: Date.now().toString(), ...formData, dateAdded: ... }]. *)
Definition newBook (clk : Clock) (fd : Form.t) : Book :=
  mkBook (JS.Number_toString (now clk))
         (Form.title fd) (Form.author fd) (Form.genre fd) (Form.year fd)
         (Form.description fd) (Form.status fd) (Form.rating fd)
         (isoDate clk).

Definition handleAddBook (clk : Clock) (st : State) : State :=
  if missingRequired (formData st) then st
  else
    resetForm clk
      (setIsAddDialogOpen false
        (setBooks (fun prev => (prev ++ [newBook clk (formData st)])%list) st)).

(** [{ ...book, ...formData }]: the form's fields over the book's. *)
Definition spread (book : Book) (fd : Form.t) : Book :=
  mkBook (id book)
         (Form.title fd) (Form.author fd) (Form.genre fd) (Form.year fd)
         (Form.description fd) (Form.status fd) (Form.rating fd)
         (dateAdded book).

Definition handleEditBook (clk : Clock) (st : State) : State :=
  match editingBook st with
  | None => st
  | Some editing =>
      if missingRequired (formData st) then st
      else
        resetForm clk
          (setEditingBook None
            (setIsEditDialogOpen false
              (setBooks
                 (map (fun book =>
                         if String.eqb (id book) (id editing)
                         then spread book (formData st)
                         else book))
                 st)))
  end.

Definition handleDeleteBook (target : string) (st : State) : State :=
  setBooks (filter (fun book => negb (String.eqb (id book) target))) st.

Definition openEditDialog (book : Book) (st : State) : State :=
  setIsEditDialogOpen true
    (setFormData
       (Form.mk (title book) (author book) (genre book) (year book)
                (description book) (status book) (rating book))
       (setEditingBook (Some book) st)).

(** The three tests of the [filteredBooks] callback. *)
Definition matchesSearch (term : string) (book : Book) : bool :=
  JS.includes (JS.toLowerCase (title book)) (JS.toLowerCase term)
  || JS.includes (JS.toLowerCase (author book)) (JS.toLowerCase term).

Definition matchesGenre (g : string) (book : Book) : bool :=
  String.eqb g "all" || String.eqb (genre book) g.

Definition matchesStatus (s : string) (book : Book) : bool :=
  String.eqb s "all" || String.eqb (Status_value (status book)) s.

Definition filteredBooks (st : State) : list Book :=
  filter (fun book =>
            matchesSearch (searchTerm st) book
            && matchesGenre (filterGenre st) book
            && matchesStatus (filterStatus st) book)
         (books st).

(** The four numbers of the statistics cards. *)
Record Summary : Type := mkSummary
  { total : nat;
    readCount : nat;
    readingCount : nat;
    toReadCount : nat }.

Definition hasStatus (s : Status) (b : Book) : bool :=
  String.eqb (Status_value (status b)) (Status_value s).

Definition summarize (bs : list Book) : Summary :=
  mkSummary (List.length bs)
            (List.length (filter (hasStatus read) bs))
            (List.length (filter (hasStatus reading) bs))
            (List.length (filter (hasStatus to_read) bs)).

(** *** The [localStorage] slot *)

(** The JSON object of a book: [JSON.stringify] leaves out a property
    whose value is undefined. *)
Definition toJSON (b : Book) : JSON.value :=
  JSON.JObj
    ([ ("id", JSON.JStr (id b));
       ("title", JSON.JStr (title b));
       ("author", JSON.JStr (author b));
       ("genre", JSON.JStr (genre b));
       ("year", JSON.JNum (year b));
       ("description", JSON.JStr (description b));
       ("status", JSON.JStr (Status_value (status b))) ]
     ++ match rating b with
        | Some r => [ ("rating", JSON.JNum r) ]
        | None => []
        end
     ++ [ ("dateAdded", JSON.JStr (dateAdded b)) ])%list.

Definition booksToJSON (bs : list Book) : JSON.value :=
  JSON.JArr (map toJSON bs).

(** [localStorage.setItem("books", JSON.stringify(books))]: the text the
    slot holds afterwards. *)
Definition saveBooks (bs : list Book) : string :=
  JSON.stringify (booksToJSON bs).

(** [JSON.parse] returns [any] and [setBooks] takes it for a [Book[]]
    without a check.  [asString] and [asStatus] read a property of a parsed
    object as the string or the status it is, when it is one. *)
Definition asString (v : option JSON.value) : option string :=
  match v with
  | Some (JSON.JStr s) => Some s
  | _ => None
  end.

Definition asStatus (v : option JSON.value) : option Status :=
  match asString v with
  | Some s =>
      if String.eqb s "read" then Some read
      else if String.eqb s "reading" then Some reading
      else if String.eqb s "to-read" then Some to_read
      else None
  | None => None
  end.

Definition sampleBooks : list Book :=
  [ mkBook "1" "The Great Gatsby" "F. Scott Fitzgerald" "Fiction" 1925
           "A classic American novel set in the Jazz Age." read (Some 5%Z)
           "2024-01-15";
    mkBook "2" "Dune" "Frank Herbert" "Science Fiction" 1965
           "Epic science fiction novel about desert planet Arrakis." reading None
           "2024-02-01" ].

(** What the effect that runs on mount does, given what
    [localStorage.getItem("books")] returns ([None] for [null]). *)
Inductive Mount : Type :=
| Restored (v : JSON.value)
    (** [setBooks] was called with the parsed value [v] *)
| RestoredUnmodelled
    (** [setBooks] was called with a parsed value outside the model *)
| Seeded (bs : list Book) (stored : string)
    (** [setBooks] was called with the samples, and they were stored *)
| Raised
    (** [JSON.parse] threw its [SyntaxError]; [setBooks] was not called *).

Definition seed : Mount := Seeded sampleBooks (saveBooks sampleBooks).

Definition loadBooks (savedBooks : option string) : Mount :=
  match savedBooks with
  | None => seed
  | Some saved =>
      if JS.truthy saved then
        match JSON.parse saved with
        | JSON.Returns v => Restored v
        | JSON.ReturnsUnmodelled => RestoredUnmodelled
        | JSON.Throws => Raised
        end
      else seed
  end.

End Library.

(** ** The minimal page: [src/app/page.tsx] *)

Module Minimal.

(** [type Book = z.infer<typeof bookSchema>]. *)
Record Book : Type := mkBook
  { title : string;
    author : string;
    rating : option Z }.

Definition toJSON (b : Book) : JSON.value :=
  JSON.JObj
    ([ ("title", JSON.JStr (title b)); ("author", JSON.JStr (author b)) ]
     ++ match rating b with
        | Some r => [ ("rating", JSON.JNum r) ]
        | None => []
        end)%list.

(** The [books] state of the page and the text of the slot ["books"]. *)
Record Page : Type := mkPage
  { books : list Book;
    stored : option string }.

(** [setBooks(updatedBooks)] and
    [localStorage.setItem("books", JSON.stringify(updatedBooks))]. *)
Definition commit (updatedBooks : list Book) : Page :=
  mkPage updatedBooks (Some (JSON.stringify (JSON.JArr (map toJSON updatedBooks)))).

(** [deleteBook] of the row of [book], rendered with the collection
    [books]. *)
Definition keptByDelete (book b : Book) : bool :=
  negb (String.eqb (title b) (title book))
  && negb (String.eqb (author b) (author book)).

Definition deleteBook (book : Book) (books : list Book) : Page :=
  commit (filter (keptByDelete book) books).

(** [onSubmit] of the edit form of the row of [book]. *)
Definition onSubmit (book : Book) (books : list Book) (values : Book) : Page :=
  commit
    (map (fun b =>
            if String.eqb (title b) (title book) && String.eqb (author b) (author book)
            then values
            else b)
         books).

End Minimal.

(** ** The properties, in the words of the specification *)

Module Spec.

(** [kept] is [all] without the elements that fail [P], the others in the
    order they have in [all]. *)
Inductive Kept {A : Type} (P : A -> Prop) : list A -> list A -> Prop :=
| Kept_nil : Kept P [] []
| Kept_keep (a : A) (all kept : list A) :
    P a -> Kept P all kept -> Kept P (a :: all) (a :: kept)
| Kept_drop (a : A) (all kept : list A) :
    ~ P a -> Kept P all kept -> Kept P (a :: all) kept.

(** The lower case of [t] occurs in the lower case of [s]. *)
Definition occursInLowerCase (t s : string) : Prop :=
  exists before after : string,
    JS.toLowerCase s = before ++ JS.toLowerCase t ++ after.

(** The wildcard of the genre and status criteria. *)
Definition wildcard : string := "all".

(** A record matches a query. *)
Definition matchesQuery (searchText genre status : string) (r : Library.Book) : Prop :=
  (searchText = ""
   \/ occursInLowerCase searchText (Library.title r)
   \/ occursInLowerCase searchText (Library.author r))
  /\ (genre = wildcard \/ Library.genre r = genre)
  /\ (status = wildcard \/ Library.Status_value (Library.status r) = status).

(** The user fills the add form with a draft and presses "Add Book". *)
Definition add (st : Library.State) (request : Library.Clock * Library.Form.t)
  : Library.State :=
  Library.handleAddBook (fst request) (Library.setFormData (snd request) st).

Definition addAll (requests : list (Library.Clock * Library.Form.t))
                  (st : Library.State) : Library.State :=
  fold_left add requests st.

Definition ids (st : Library.State) : list string :=
  map Library.id (Library.books st).

(** The effect on mount went through and left an empty collection. *)
Definition fallsBackToEmpty (m : Library.Mount) : Prop :=
  m = Library.Restored (JSON.JArr []) \/ exists stored, m = Library.Seeded [] stored.

End Spec.

(** ** Sample inputs *)

Module Sample.

Import Library.

Definition clock : Clock := mkClock 1700000000000 "2023-11-14" 2023.
Definition later : Clock := mkClock 1700000000001 "2023-11-14" 2023.

Definition emma : Form.t :=
  Form.mk "Emma" "Jane Austen" "Romance" 1815 "" to_read None.

Definition persuasion : Form.t :=
  Form.mk "Persuasion" "Jane Austen" "Romance" 1817 "" read (Some 4%Z).

Definition untitled : Form.t :=
  Form.mk "" "Jane Austen" "Romance" 1815 "" to_read None.

(** The page after a first visit: the two sample books, nothing typed. *)
Definition shelf : State :=
  mkState sampleBooks "" "Fiction" "to-read" false false None (blankForm clock).

Definition gatsby : Book :=
  mkBook "1" "The Great Gatsby" "F. Scott Fitzgerald" "Fiction" 1925
         "A classic American novel set in the Jazz Age." read (Some 5%Z)
         "2024-01-15".

Definition dune : Book :=
  mkBook "2" "Dune" "Frank Herbert" "Science Fiction" 1965
         "Epic science fiction novel about desert planet Arrakis." reading None
         "2024-02-01".

(** A text cut short, as a write that did not finish leaves it. *)
Definition truncated : string := "[{".

(** Two adds within one millisecond: the two new records share their id. *)
Definition twins : State :=
  Spec.add (Spec.add shelf (clock, emma)) (clock, persuasion).

Definition emmaRecord : Book := newBook clock emma.
Definition persuasionRecord : Book := newBook clock persuasion.

(** The form of the edit dialog, opened on the Emma record and retitled. *)
Definition revised : Form.t :=
  Form.mk "Emma (rev)" "Jane Austen" "Romance" 1815 "" to_read None.

(** The rows of the minimal page: two books of one author, one of
    another. *)
Definition rows : list Minimal.Book :=
  [ Minimal.mkBook "Emma" "Jane Austen" None;
    Minimal.mkBook "Dune" "Frank Herbert" (Some 5%Z);
    Minimal.mkBook "Persuasion" "Jane Austen" (Some 4%Z) ].

End Sample.

(** ** [Number.parseInt] *)

Module Number.

(** The result of [Number.parseInt]: an integer, or [NaN].  The model
    keeps the integer exact, as JavaScript does up to 2^53. *)
Inductive t : Type :=
| NaN
| Int (z : Z).

(** The white space [parseInt] skips in front, on Latin-1 text: tab, line
    feed, vertical tab, form feed, carriage return, space, no-break space. *)
Definition isStrWhiteSpace (c : ascii) : bool :=
  let n := N_of_ascii c in
  ((n =? 9) || (n =? 10) || (n =? 11) || (n =? 12) || (n =? 13)
   || (n =? 32) || (n =? 160))%N.

Fixpoint trimStart (s : string) : string :=
  match s with
  | EmptyString => ""
  | String c r => if isStrWhiteSpace c then trimStart r else s
  end.

(** The value of [c] as a digit in the radix, when it is one. *)
Definition radixDigit (radix : N) (c : ascii) : option N :=
  match JSON.hexValue c with
  | Some d => if (d <? radix)%N then Some d else None
  | None => None
  end.

(** The value of the longest run of digits in front of [s]; [acc] is the
    value read so far, [None] while no digit has been read. *)
Fixpoint digitsValue (radix : N) (acc : option N) (s : string) : option N :=
  match s with
  | EmptyString => acc
  | String c r =>
      match radixDigit radix c with
      | Some d =>
          digitsValue radix
            (Some match acc with
                  | Some a => (a * radix + d)%N
                  | None => d
                  end)
            r
      | None => acc
      end
  end.

(** [Number.parseInt(s)], no radix given: white space, a sign, [0x] or [0X]
    for radix 16, then the digits; what follows them is ignored. *)
Definition parseInt (s : string) : t :=
  let s1 := trimStart s in
  let (negative, s2) :=
    match s1 with
    | EmptyString => (false, s1)
    | String c r =>
        if Ascii.eqb c "-" then (true, r)
        else if Ascii.eqb c "+" then (false, r)
        else (false, s1)
    end in
  let (radix, s3) :=
    match s2 with
    | String z (String x r) =>
        if Ascii.eqb z "0" && (Ascii.eqb x "x" || Ascii.eqb x "X")
        then (16%N, r)
        else (10%N, s2)
    | _ => (10%N, s2)
    end in
  match digitsValue radix None s3 with
  | None => NaN
  | Some n => Int (if negative then (- Z.of_N n)%Z else Z.of_N n)
  end.

(** [Number.isSafeInteger]: the integers JavaScript holds exactly and
    prints in plain decimal. *)
Definition isSafeInteger (z : Z) : bool :=
  ((- 2 ^ 53 <? z) && (z <? 2 ^ 53))%Z.

(** [n || fallback]: [NaN] and 0 are falsy. *)
Definition orElse (n : t) (fallback : Z) : Z :=
  match n with
  | NaN => fallback
  | Int z => if Z.eqb z 0 then fallback else z
  end.

End Number.

(** ** The forms and the widgets of the rich page *)

Module LibraryForms.

Import Library.

Definition genres : list string :=
  [ "Fiction"; "Non-Fiction"; "Mystery"; "Romance"; "Science Fiction";
    "Fantasy"; "Biography"; "History"; "Self-Help"; "Technology" ].

(** [statuses]: the value and the label of each. *)
Definition statuses : list (string * string) :=
  [ ("to-read", "To Read");
    ("reading", "Currently Reading");
    ("read", "Completed") ].

Definition setSearchTerm (term : string) (st : State) : State :=
  mkState (books st) term (filterGenre st) (filterStatus st)
          (isAddDialogOpen st) (isEditDialogOpen st) (editingBook st) (formData st).

Definition setFilterGenre (g : string) (st : State) : State :=
  mkState (books st) (searchTerm st) g (filterStatus st)
          (isAddDialogOpen st) (isEditDialogOpen st) (editingBook st) (formData st).

Definition setFilterStatus (s : string) (st : State) : State :=
  mkState (books st) (searchTerm st) (filterGenre st) s
          (isAddDialogOpen st) (isEditDialogOpen st) (editingBook st) (formData st).

(** The year input: [setFormData((prev) => ({ ...prev,
    year: Number.parseInt(e.target.value) || new Date().getFullYear() }))]. *)
Definition onYearChange (clk : Clock) (value : string) (st : State) : State :=
  let prev := formData st in
  setFormData
    (Form.mk (Form.title prev) (Form.author prev) (Form.genre prev)
             (Number.orElse (Number.parseInt value) (fullYear clk))
             (Form.description prev) (Form.status prev) (Form.rating prev))
    st.

(** The rating select shows [formData.rating?.toString() || ""]; every
    printed number is a truthy string. *)
Definition ratingSelectValue (rating : option Z) : string :=
  match rating with
  | Some r => JS.Number_toString r
  | None => ""
  end.

(** The values of the items of the rating select: none, and 1 to 5. *)
Definition ratingItems : list string :=
  "" :: map JS.Number_toString [1; 2; 3; 4; 5]%Z.

(** What the rating select puts in the form for the value of an item:
    [value ? Number.parseInt(value) : undefined]. *)
Definition onRatingChange (value : string) : option Number.t :=
  if JS.truthy value then Some (Number.parseInt value) else None.

(** [renderStars]: [null], or the class of each of the five stars. *)
Definition starClass (rating star : Z) : string :=
  "text-sm " ++ (if (star <=? rating)%Z then "text-yellow-400" else "text-gray-300").

Definition renderStars (rating : option Z) : option (list string) :=
  match rating with
  | None => None
  | Some r => if Z.eqb r 0 then None else Some (map (starClass r) [1; 2; 3; 4; 5]%Z)
  end.

(** A record has the three fields the forms require. *)
Definition complete (b : Book) : Prop :=
  title b <> "" /\ author b <> "" /\ genre b <> "".

End LibraryForms.

(** ** The rest of the minimal page *)

(** [bookSchema]: title and author of two characters at least, a rating
    from 1 to 5 when there is one. *)
Module bookSchema.

Definition accepts (b : Minimal.Book) : bool :=
  (2 <=? String.length (Minimal.title b))%nat
  && (2 <=? String.length (Minimal.author b))%nat
  && match Minimal.rating b with
     | Some r => ((1 <=? r) && (r <=? 5))%Z
     | None => true
     end.

End bookSchema.

Module AddBookForm.

(** [setBooks((prev) => { const updatedBooks = [...prev, values]; ... })]:
    the collection with the values at its end, stored at once. *)
Definition onSubmit (values : Minimal.Book) (prev : list Minimal.Book) : Minimal.Page :=
  Minimal.commit (prev ++ [values])%list.

(** The rating select shows [field.value?.toString() || "none"] and sets
    [value === "none" ? undefined : Number.parseInt(value)]. *)
Definition ratingSelectValue (rating : option Z) : string :=
  match rating with
  | Some r => JS.Number_toString r
  | None => "none"
  end.

Definition onRatingChange (value : string) : option Number.t :=
  if String.eqb value "none" then None else Some (Number.parseInt value).

End AddBookForm.

Module IndexPage.

Definition asRating (v : option JSON.value) : option (option Z) :=
  match v with
  | None => Some None
  | Some (JSON.JNum z) => Some (Some z)
  | Some _ => None
  end.

(** A parsed value read as the [Book] it is, when it is one. *)
Definition asBook (v : JSON.value) : option Minimal.Book :=
  match v with
  | JSON.JObj ms =>
      match Library.asString (JSON.get "title" ms),
            Library.asString (JSON.get "author" ms),
            asRating (JSON.get "rating" ms) with
      | Some t, Some a, Some r => Some (Minimal.mkBook t a r)
      | _, _, _ => None
      end
  | _ => None
  end.

Fixpoint asBookList (items : list JSON.value) : option (list Minimal.Book) :=
  match items with
  | [] => Some []
  | v :: r =>
      match asBook v, asBookList r with
      | Some b, Some bs => Some (b :: bs)
      | _, _ => None
      end
  end.

Definition asBooks (v : JSON.value) : option (list Minimal.Book) :=
  match v with
  | JSON.JArr items => asBookList items
  | _ => None
  end.

(** What the effect that runs on mount does, given what
    [localStorage.getItem("books")] returns. *)
Inductive Mount : Type :=
| Restored (v : JSON.value)
| RestoredUnmodelled
| Untouched
| Raised.

Definition loadBooks (storedBooks : option string) : Mount :=
  match storedBooks with
  | None => Untouched
  | Some stored =>
      if JS.truthy stored then
        match JSON.parse stored with
        | JSON.Returns v => Restored v
        | JSON.ReturnsUnmodelled => RestoredUnmodelled
        | JSON.Throws => Raised
        end
      else Untouched
  end.

End IndexPage.

(** ** The books with numbers as JavaScript has them

  [Library.Book] takes the year and the rating of a book for integers.
  The page checks neither.  The year input keeps
  [Number.parseInt(e.target.value)] whenever it is truthy, and that is
  [Infinity] for a digit text beyond the range of a double; the interface
  says [number].  [InMemory.Book] is the book with any number for its year
  and its rating, and [JSON.stringify] on it: a number that is not finite
  is written [null]. *)

Module InMemory.

Inductive number : Type :=
| Finite (z : Z)
| Infinity
| NegativeInfinity
| NaN.

(** [interface Book]. *)
Record Book : Type := mkBook
  { id : string;
    title : string;
    author : string;
    genre : string;
    year : number;
    description : string;
    status : Library.Status;
    rating : option number;
    dateAdded : string }.

(** A book whose numbers are integers. *)
Definition ofBook (b : Library.Book) : Book :=
  mkBook (Library.id b) (Library.title b) (Library.author b) (Library.genre b)
         (Finite (Library.year b)) (Library.description b) (Library.status b)
         (option_map Finite (Library.rating b)) (Library.dateAdded b).

(** The number case of [JSON.stringify]: the decimal of a finite number,
    [null] for the others. *)
Definition numberToJSON (n : number) : JSON.value :=
  match n with
  | Finite z => JSON.JNum z
  | Infinity | NegativeInfinity | NaN => JSON.JNull
  end.

(** The properties of the object of a book that [JSON.stringify] writes,
    in the order of the literal of [handleAddBook]; a property whose value
    is undefined is left out. *)
Definition members (b : Book) : list (string * JSON.value) :=
  ([ ("id", JSON.JStr (id b));
     ("title", JSON.JStr (title b));
     ("author", JSON.JStr (author b));
     ("genre", JSON.JStr (genre b));
     ("year", numberToJSON (year b));
     ("description", JSON.JStr (description b));
     ("status", JSON.JStr (Library.Status_value (status b))) ]
   ++ match rating b with
      | Some r => [ ("rating", numberToJSON r) ]
      | None => []
      end
   ++ [ ("dateAdded", JSON.JStr (dateAdded b)) ])%list.


(** The text [localStorage.setItem("books", JSON.stringify(books))] stores
    for objects with their properties in the order of [members]. *)
Definition saveBooks (bs : list Book) : string :=
  JSON.stringify (JSON.JArr (map (fun b => JSON.JObj (members b)) bs)).

(** A parsed value read as the [Book[]] it is, when it is one: [null] is
    no number. *)
Definition asNumber (v : option JSON.value) : option number :=
  match v with
  | Some (JSON.JNum z) => Some (Finite z)
  | _ => None
  end.

Definition asRating (v : option JSON.value) : option (option number) :=
  match v with
  | None => Some None
  | Some (JSON.JNum z) => Some (Some (Finite z))
  | Some _ => None
  end.

Definition asBook (v : JSON.value) : option Book :=
  match v with
  | JSON.JObj ms =>
      match Library.asString (JSON.get "id" ms),
            Library.asString (JSON.get "title" ms),
            Library.asString (JSON.get "author" ms),
            Library.asString (JSON.get "genre" ms),
            asNumber (JSON.get "year" ms),
            Library.asString (JSON.get "description" ms),
            Library.asStatus (JSON.get "status" ms),
            asRating (JSON.get "rating" ms),
            Library.asString (JSON.get "dateAdded" ms) with
      | Some i, Some t, Some a, Some g, Some y, Some d, Some s, Some r, Some da =>
          Some (mkBook i t a g y d s r da)
      | _, _, _, _, _, _, _, _, _ => None
      end
  | _ => None
  end.

Fixpoint asBookList (items : list JSON.value) : option (list Book) :=
  match items with
  | [] => Some []
  | v :: r =>
      match asBook v, asBookList r with
      | Some b, Some bs => Some (b :: bs)
      | _, _ => None
      end
  end.

Definition asBooks (v : JSON.value) : option (list Book) :=
  match v with
  | JSON.JArr items => asBookList items
  | _ => None
  end.






End InMemory.

(** ** The search on text beyond Latin-1

  A JavaScript string is a sequence of UTF-16 code units, and
  [String.prototype.toLowerCase] follows the case mappings of Unicode,
  those of SpecialCasing that depend on no language included: the lower
  case of the capital sigma is the final sigma when a cased letter comes
  before it and none comes after it, case-ignorable characters skipped;
  elsewhere it is the small sigma.  [Utf16] has the search of the rich page
  on text of Latin-1 and of the Greek letters alpha to omega, capital and
  small. *)

Module Utf16.

Open Scope N_scope.

Definition text : Type := list N.

Definition ofString (s : string) : text :=
  map N_of_ascii (list_ascii_of_string s).

Definition between (lo hi u : N) : bool := (lo <=? u) && (u <=? hi).

(** The code units of the model: U+0000-U+00FF, and U+0391-U+03C9 without
    the unassigned U+03A2 and the letters with tonos or dialytika
    U+03AA-U+03B0. *)
Definition inAlphabet (u : N) : bool :=
  (u <? 256) || (between 913 937 u && negb (u =? 930)) || between 945 969 u.

Definition modelled (s : text) : bool := forallb inAlphabet s.

(** The capitals: A-Z, U+00C0-U+00DE without the multiplication sign, and
    alpha to omega.  The lower case of each is 32 above it. *)
Definition isCapital (u : N) : bool :=
  between 65 90 u
  || (between 192 222 u && negb (u =? 215))
  || (between 913 937 u && negb (u =? 930)).

(** The property Cased, on the alphabet: the capitals, a-z, the ordinal
    indicators U+00AA and U+00BA, the micro sign U+00B5, U+00DF-U+00FF
    without the division sign, and the small alpha to omega. *)
Definition isCased (u : N) : bool :=
  isCapital u
  || between 97 122 u
  || (u =? 170) || (u =? 181) || (u =? 186)
  || (between 223 255 u && negb (u =? 247))
  || between 945 969 u.

(** The property Case_Ignorable, on the alphabet: apostrophe, full stop,
    colon, circumflex, grave, diaeresis, soft hyphen, macron, acute, middle
    dot, cedilla. *)
Definition isCaseIgnorable (u : N) : bool :=
  existsb (N.eqb u) [39; 46; 58; 94; 96; 168; 173; 175; 180; 183; 184].

Definition capitalSigma : N := 931.
Definition smallSigma : N := 963.
Definition finalSigma : N := 962.

Definition lowerUnit (u : N) : N := if isCapital u then u + 32 else u.

(** A cased letter follows, case-ignorable characters skipped. *)
Fixpoint casedAhead (s : text) : bool :=
  match s with
  | [] => false
  | u :: r => if isCaseIgnorable u then casedAhead r else isCased u
  end.

(** The lower case of [s], given whether a cased letter comes before it,
    case-ignorable characters skipped. *)
Fixpoint lower (casedBehind : bool) (s : text) : text :=
  match s with
  | [] => []
  | u :: r =>
      (if (u =? capitalSigma) && casedBehind && negb (casedAhead r)
       then finalSigma
       else lowerUnit u)
      :: lower (if isCaseIgnorable u then casedBehind else isCased u) r
  end.

Definition toLowerCase (s : text) : text := lower false s.

Fixpoint startsWith (s t : text) {struct t} : bool :=
  match t, s with
  | [], _ => true
  | _ :: _, [] => false
  | b :: t', a :: s' => (a =? b) && startsWith s' t'
  end.

Fixpoint includes (s t : text) : bool :=
  match s with
  | [] => startsWith [] t
  | _ :: s' => startsWith s t || includes s' t
  end.

(** [a === b]. *)
Definition same (a b : text) : bool :=
  if list_eq_dec N.eq_dec a b then true else false.

(** [interface Book], as far as the search reads it, and the rest. *)
Record Book : Type := mkBook
  { id : text;
    title : text;
    author : text;
    genre : text;
    year : Z;
    description : text;
    status : Library.Status;
    rating : option Z;
    dateAdded : text }.

Definition ofBook (b : Library.Book) : Book :=
  mkBook (ofString (Library.id b)) (ofString (Library.title b))
         (ofString (Library.author b)) (ofString (Library.genre b))
         (Library.year b) (ofString (Library.description b)) (Library.status b)
         (Library.rating b) (ofString (Library.dateAdded b)).

(** The three tests of the [filteredBooks] callback. *)
Definition matchesSearch (term : text) (book : Book) : bool :=
  includes (toLowerCase (title book)) (toLowerCase term)
  || includes (toLowerCase (author book)) (toLowerCase term).

Definition matchesGenre (g : text) (book : Book) : bool :=
  same g (ofString "all") || same (genre book) g.

Definition matchesStatus (s : text) (book : Book) : bool :=
  same s (ofString "all")
  || same (ofString (Library.Status_value (status book))) s.

(** [filteredBooks], of the four state variables it reads. *)
Definition filteredBooks (books : list Book) (searchTerm filterGenre filterStatus : text)
  : list Book :=
  filter (fun book =>
            matchesSearch searchTerm book
            && matchesGenre filterGenre book
            && matchesStatus filterStatus book)
         books.

(** The lower case of [t] occurs in the lower case of [s]. *)
Definition occursInLowerCase (t s : text) : Prop :=
  exists before after : text,
    toLowerCase s = (before ++ toLowerCase t ++ after)%list.

(** A record matches a query. *)
Definition matchesQuery (searchText genre status : text) (r : Book) : Prop :=
  (searchText = []
   \/ occursInLowerCase searchText (title r)
   \/ occursInLowerCase searchText (author r))
  /\ (genre = ofString Spec.wildcard \/ Utf16.genre r = genre)
  /\ (status = ofString Spec.wildcard
      \/ ofString (Library.Status_value (Utf16.status r)) = status).

(** The word hodos in capitals, omicron delta omicron sigma, and a book of
    that title. *)
Definition hodos : text := [927; 916; 927; 931].

Definition hodosBook : Book :=
  mkBook (ofString "3") hodos (ofString "Anon") (ofString "Fiction") 1957
         [] Library.read None (ofString "2024-03-01").

End Utf16.

(** ** Strings *)

Section Strings.

Lemma append_assoc (a b c : string) : (a ++ b) ++ c = a ++ (b ++ c).
Proof.
  induction a as [|x a IH]; simpl; [reflexivity | now rewrite IH].
Qed.

Lemma append_nil_r (a : string) : a ++ "" = a.
Proof.
  induction a as [|x a IH]; simpl; [reflexivity | now rewrite IH].
Qed.

Lemma length_append (a b : string) :
  String.length (a ++ b) = String.length a + String.length b.
Proof.
  induction a as [|x a IH]; simpl; [reflexivity | now rewrite IH].
Qed.

Lemma truthy_false (s : string) : JS.truthy s = false <-> s = "".
Proof.
  destruct s; simpl; split; intro H; try reflexivity; discriminate H.
Qed.

Lemma startsWith_spec (s t : string) :
  JS.startsWith s t = true <-> exists after, s = t ++ after.
Proof.
  revert s; induction t as [|b t IH]; intros s; simpl.
  - split; [intros _; now exists s | reflexivity].
  - destruct s as [|a s].
    + split; [discriminate | intros [after H]; discriminate H].
    + rewrite andb_true_iff, Ascii.eqb_eq, IH. split.
      * intros [-> [after ->]]. now exists after.
      * intros [after H]. injection H as -> ->. split; [reflexivity | now exists after].
Qed.

Lemma includes_spec (s t : string) :
  JS.includes s t = true <-> exists before after, s = before ++ t ++ after.
Proof.
  induction s as [|a s IH]; simpl.
  - rewrite startsWith_spec. split.
    + intros [after H]. now exists "", after.
    + intros [[|x before] [after H]]; [now exists after | discriminate H].
  - rewrite orb_true_iff, IH.
    change (match t with
            | "" => true
            | String b t' =>
                (Ascii.eqb a b && JS.startsWith s t')%bool
            end) with (JS.startsWith (String a s) t).
    rewrite startsWith_spec. split.
    + intros [[after H] | [before [after H]]].
      * now exists "", after.
      * exists (String a before), after. simpl. now rewrite H.
    + intros [[|x before] [after H]].
      * left. now exists after.
      * right. simpl in H. injection H as _ H. now exists before, after.
Qed.

End Strings.

(** ** The collection store of the rich page *)

Section Store.

Import Library.

Lemma missingRequired_true (fd : Form.t) :
  missingRequired fd = true <->
  Form.title fd = "" \/ Form.author fd = "" \/ Form.genre fd = "".
Proof.
  unfold missingRequired.
  rewrite !orb_true_iff, !negb_true_iff, !truthy_false. tauto.
Qed.

Lemma missingRequired_false (fd : Form.t) :
  missingRequired fd = false <->
  Form.title fd <> "" /\ Form.author fd <> "" /\ Form.genre fd <> "".
Proof.
  rewrite <- not_true_iff_false, missingRequired_true. split.
  - intros H. repeat split; intros E; apply H; tauto.
  - intros (Ht & Ha & Hg) [E | [E | E]]; auto.
Qed.

(** C3.  A draft whose title, author or genre is the empty string is
    rejected by [handleAddBook]: the component state, and with it the
    collection, is left as it was; no record is appended and none is
    modified. *)
Theorem handleAddBook_rejects_missing_field (clk : Clock) (st : State) :
  Form.title (formData st) = ""
  \/ Form.author (formData st) = ""
  \/ Form.genre (formData st) = "" ->
  handleAddBook clk st = st /\ books (handleAddBook clk st) = books st.
Proof.
  intros H. apply missingRequired_true in H.
  unfold handleAddBook. rewrite H. split; reflexivity.
Qed.

Lemma books_handleEditBook (clk : Clock) (st : State) (editing : Book) :
  editingBook st = Some editing ->
  missingRequired (formData st) = false ->
  books (handleEditBook clk st) =
  map (fun book =>
         if String.eqb (id book) (id editing) then spread book (formData st) else book)
      (books st).
Proof.
  intros He Hm. unfold handleEditBook. now rewrite He, Hm.
Qed.

Lemma unique_id_index (bs : list Book) (i j : nat) (a b : Book) :
  NoDup (map id bs) ->
  nth_error bs i = Some a -> nth_error bs j = Some b -> id a = id b -> i = j.
Proof.
  intros Hnodup Hi Hj Hid.
  apply (proj1 (NoDup_nth_error (map id bs)) Hnodup).
  - rewrite length_map. apply nth_error_Some. now rewrite Hi.
  - rewrite !nth_error_map, Hi, Hj. simpl. now rewrite Hid.
Qed.

(** C5, as the code has it.  With a book being edited and a form whose
    title, author and genre are filled, [handleEditBook] keeps the length of
    the collection and, at every index, puts a record with the id and the
    date of the one that was there: with the form's fields when the id is
    the edited one's, so for every record that carries that id, and the
    very same record otherwise.  In a collection without an id twice, the
    records at all indices but that of the edited id are the same as
    before. *)
Theorem handleEditBook_replaces_in_place (clk : Clock) (st : State) (editing : Book) :
  editingBook st = Some editing ->
  Form.title (formData st) <> "" ->
  Form.author (formData st) <> "" ->
  Form.genre (formData st) <> "" ->
  let fd := formData st in
  let st' := handleEditBook clk st in
  List.length (books st') = List.length (books st)
  /\ (forall (i : nat) (book : Book),
        nth_error (books st) i = Some book ->
        exists book' : Book,
          nth_error (books st') i = Some book'
          /\ id book' = id book
          /\ dateAdded book' = dateAdded book
          /\ (id book = id editing ->
              title book' = Form.title fd
              /\ author book' = Form.author fd
              /\ genre book' = Form.genre fd
              /\ year book' = Form.year fd
              /\ description book' = Form.description fd
              /\ status book' = Form.status fd
              /\ rating book' = Form.rating fd)
          /\ (id book <> id editing -> book' = book))
  /\ (NoDup (map id (books st)) ->
      forall (i j : nat) (book other : Book),
        nth_error (books st) i = Some book ->
        id book = id editing ->
        nth_error (books st) j = Some other ->
        j <> i ->
        nth_error (books st') j = Some other).
Proof.
  intros He Ht Ha Hg fd st'. subst st'.
  rewrite (books_handleEditBook clk st editing He)
    by (apply missingRequired_false; auto).
  split; [apply length_map|]. split.
  - intros i book Hi. rewrite nth_error_map, Hi. simpl.
    destruct (String.eqb_spec (id book) (id editing)) as [E | N].
    + exists (spread book fd).
      split; [reflexivity|]. split; [reflexivity|]. split; [reflexivity|].
      split; [intros _; now repeat split | intros N; now elim N].
    + exists book.
      split; [reflexivity|]. split; [reflexivity|]. split; [reflexivity|].
      split; [intros E; now elim N | reflexivity].
  - intros Hnodup i j book other Hi Hid Hj Hne.
    rewrite nth_error_map, Hj. simpl.
    destruct (String.eqb_spec (id other) (id editing)) as [E | N]; [|reflexivity].
    elim Hne. apply (unique_id_index (books st) j i other book Hnodup Hj Hi).
    now rewrite E, Hid.
Qed.

Lemma filter_unchanged {A : Type} (f : A -> bool) (l : list A) :
  (forall a, In a l -> f a = true) -> filter f l = l.
Proof.
  induction l as [|a l IH]; simpl; intros H; [reflexivity|].
  rewrite (H a) by now left. f_equal. apply IH. intros b Hb. apply H. now right.
Qed.

Lemma filter_twice {A : Type} (f : A -> bool) (l : list A) :
  filter f (filter f l) = filter f l.
Proof.
  apply filter_unchanged. intros a Ha. now apply filter_In in Ha.
Qed.

(** C6.  [handleDeleteBook] twice with one id gives the state that one
    call gives, and with an id that no record has it gives the state it
    was called on. *)
Theorem handleDeleteBook_idempotent (target : string) (st : State) :
  handleDeleteBook target (handleDeleteBook target st) = handleDeleteBook target st
  /\ ((forall b, In b (books st) -> id b <> target) ->
      handleDeleteBook target st = st).
Proof.
  unfold handleDeleteBook, setBooks. simpl. split.
  - now rewrite filter_twice.
  - intros H. rewrite filter_unchanged; [now destruct st|].
    intros b Hb. apply negb_true_iff, String.eqb_neq. now apply H.
Qed.

(** *** Identifiers *)

Lemma to_int_nonnil (z : Z) :
  Z.to_int z <> Decimal.Pos Decimal.Nil /\ Z.to_int z <> Decimal.Neg Decimal.Nil.
Proof.
  destruct z as [|p|p]; simpl; split; try discriminate.
  all: intros [= H]; now apply (Unsigned.to_uint_nonnil p).
Qed.

Lemma Number_toString_inj (a b : Z) :
  JS.Number_toString a = JS.Number_toString b -> a = b.
Proof.
  unfold JS.Number_toString. intros H.
  apply DecimalZ.to_int_inj.
  assert (Ha := NilZero.isi (Z.to_int a)
                  (proj1 (to_int_nonnil a)) (proj2 (to_int_nonnil a))).
  assert (Hb := NilZero.isi (Z.to_int b)
                  (proj1 (to_int_nonnil b)) (proj2 (to_int_nonnil b))).
  rewrite H in Ha. congruence.
Qed.

Lemma ids_add (st : State) (clk : Clock) (fd : Form.t) :
  Spec.ids (Spec.add st (clk, fd)) =
  if missingRequired fd then Spec.ids st
  else (Spec.ids st ++ [JS.Number_toString (now clk)])%list.
Proof.
  unfold Spec.ids, Spec.add, handleAddBook. simpl.
  destruct (missingRequired fd); simpl; [reflexivity|].
  now rewrite map_app.
Qed.

Lemma NoDup_snoc {A : Type} (l : list A) (x : A) :
  NoDup l -> ~ In x l -> NoDup (l ++ [x]).
Proof.
  induction 1 as [|a l Ha Hl IH]; simpl; intros Hx.
  - constructor; [intros [] | constructor].
  - constructor.
    + rewrite in_app_iff. intros [H | [H | []]]; [now apply Ha|].
      apply Hx. now left.
    + apply IH. intros H. apply Hx. now right.
Qed.

(** C1, as the code has it.  The id of a new record is the clock reading
    in decimal.  When the collection has no id twice, the clock readings of
    a sequence of adds are pairwise distinct and none of them, in decimal,
    is an id of the collection, the collection after the adds has no id
    twice. *)
Theorem addAll_ids_unique (requests : list (Clock * Form.t)) (st : State) :
  NoDup (Spec.ids st) ->
  NoDup (map (fun request => now (fst request)) requests) ->
  (forall request, In request requests ->
     ~ In (JS.Number_toString (now (fst request))) (Spec.ids st)) ->
  NoDup (Spec.ids (Spec.addAll requests st)).
Proof.
  revert st. induction requests as [|[clk fd] requests IH]; intros st Hst Hclk Hnew.
  - exact Hst.
  - simpl in Hclk. apply NoDup_cons_iff in Hclk as [Hfirst Hclk].
    change (NoDup (Spec.ids (Spec.addAll requests (Spec.add st (clk, fd))))).
    apply IH; [| exact Hclk |].
    + rewrite ids_add. destruct (missingRequired fd); [exact Hst|].
      apply NoDup_snoc; [exact Hst|]. apply (Hnew (clk, fd)). now left.
    + intros request Hin. rewrite ids_add.
      assert (Hold : ~ In (JS.Number_toString (now (fst request))) (Spec.ids st))
        by (apply Hnew; now right).
      destruct (missingRequired fd); [exact Hold|].
      rewrite in_app_iff. intros [H | [H | []]]; [now apply Hold|].
      apply Number_toString_inj in H. apply Hfirst.
      simpl. rewrite H. now apply (in_map (fun r => now (fst r))).
Qed.

(** *** Statistics *)

Lemma length_filter_status (s : Status) (bs : list Book) :
  List.length (filter (hasStatus s) bs) =
  List.length (filter (fun x => String.eqb (Status_value x) (Status_value s))
                      (map status bs)).
Proof.
  induction bs as [|b bs IH]; simpl; [reflexivity|].
  unfold hasStatus at 1. destruct (String.eqb _ _); simpl; now rewrite IH.
Qed.

Lemma length_filter_Permutation {A : Type} (f : A -> bool) (l l' : list A) :
  Permutation l l' -> List.length (filter f l) = List.length (filter f l').
Proof.
  induction 1 as [|x l l' _ IH|x y l|l l' l'' _ IH1 _ IH2]; simpl.
  - reflexivity.
  - destruct (f x); simpl; now rewrite IH.
  - destruct (f x), (f y); reflexivity.
  - now rewrite IH1.
Qed.

Lemma length_filter_repeat {A : Type} (f : A -> bool) (x : A) (n : nat) :
  List.length (filter f (repeat x n)) = if f x then n else 0.
Proof.
  induction n as [|n IH]; simpl; [now destruct (f x)|].
  destruct (f x); simpl; now rewrite IH.
Qed.

(** C8.  When the statuses of the records are [r] times read, [g] times
    reading and [t] times to-read, in any order, the statistics cards show
    [r + g + t], [r], [g] and [t]. *)
Theorem summarize_counts (bs : list Book) (r g t : nat) :
  Permutation (map status bs)
              (repeat read r ++ repeat reading g ++ repeat to_read t)%list ->
  summarize bs = mkSummary (r + g + t) r g t.
Proof.
  intros H. unfold summarize.
  rewrite !length_filter_status.
  rewrite !(length_filter_Permutation _ _ _ H).
  rewrite <- (length_map status bs), (Permutation_length H).
  rewrite !filter_app, !length_app, !length_filter_repeat, !repeat_length.
  simpl. f_equal; lia.
Qed.

End Store.

(** ** The derived views of the rich page *)

Section View.

Import Library.

Lemma filter_Kept {A : Type} (f : A -> bool) (P : A -> Prop) (l : list A) :
  (forall a, f a = true <-> P a) -> Spec.Kept P l (filter f l).
Proof.
  intros H. induction l as [|a l IH]; simpl.
  - constructor.
  - destruct (f a) eqn:E.
    + apply Spec.Kept_keep; [now apply H | exact IH].
    + apply Spec.Kept_drop; [| exact IH].
      intros Pa. apply H in Pa. congruence.
Qed.

Lemma includes_occurs (term field : string) :
  JS.includes (JS.toLowerCase field) (JS.toLowerCase term) = true
  <-> Spec.occursInLowerCase term field.
Proof.
  apply includes_spec.
Qed.

Lemma matchesSearch_spec (term : string) (b : Book) :
  matchesSearch term b = true <->
  term = ""
  \/ Spec.occursInLowerCase term (title b)
  \/ Spec.occursInLowerCase term (author b).
Proof.
  unfold matchesSearch. rewrite orb_true_iff, !includes_occurs. split.
  - tauto.
  - intros [-> | H]; [| exact H].
    left. exists "", (JS.toLowerCase (title b)). reflexivity.
Qed.

Lemma matchesGenre_spec (g : string) (b : Book) :
  matchesGenre g b = true <-> g = Spec.wildcard \/ genre b = g.
Proof.
  unfold matchesGenre. now rewrite orb_true_iff, !String.eqb_eq.
Qed.

Lemma matchesStatus_spec (s : string) (b : Book) :
  matchesStatus s b = true <-> s = Spec.wildcard \/ Status_value (status b) = s.
Proof.
  unfold matchesStatus. now rewrite orb_true_iff, !String.eqb_eq.
Qed.

(** *** The search on UTF-16 text *)

Lemma Utf16_startsWith_spec (s t : Utf16.text) :
  Utf16.startsWith s t = true <-> exists after, s = (t ++ after)%list.
Proof.
  revert s; induction t as [|b t IH]; intros s; cbn [Utf16.startsWith].
  - split; [intros _; now exists s | reflexivity].
  - destruct s as [|a s].
    + split; [discriminate | intros [after H]; discriminate H].
    + rewrite andb_true_iff, N.eqb_eq, IH. split.
      * intros [-> [after ->]]. now exists after.
      * intros [after H]. injection H as -> ->. split; [reflexivity | now exists after].
Qed.

Lemma Utf16_includes_spec (s t : Utf16.text) :
  Utf16.includes s t = true <-> exists before after, s = (before ++ t ++ after)%list.
Proof.
  induction s as [|a s IH]; cbn [Utf16.includes].
  - rewrite Utf16_startsWith_spec. split.
    + intros [after H]. now exists [], after.
    + intros [[|x before] [after H]]; [now exists after | discriminate H].
  - rewrite orb_true_iff, IH, Utf16_startsWith_spec. split.
    + intros [[after H] | [before [after H]]].
      * now exists [], after.
      * exists (a :: before), after. simpl. now rewrite H.
    + intros [[|x before] [after H]].
      * left. now exists after.
      * right. simpl in H. injection H as _ H. now exists before, after.
Qed.

Lemma Utf16_same_spec (a b : Utf16.text) : Utf16.same a b = true <-> a = b.
Proof.
  unfold Utf16.same. destruct (list_eq_dec N.eq_dec a b) as [E | E].
  - now split.
  - split; [discriminate | intros H; now elim E].
Qed.

Lemma Utf16_matchesSearch_spec (term : Utf16.text) (b : Utf16.Book) :
  Utf16.matchesSearch term b = true <->
  term = []
  \/ Utf16.occursInLowerCase term (Utf16.title b)
  \/ Utf16.occursInLowerCase term (Utf16.author b).
Proof.
  unfold Utf16.matchesSearch, Utf16.occursInLowerCase.
  rewrite orb_true_iff, !Utf16_includes_spec. split.
  - tauto.
  - intros [-> | H]; [| exact H].
    left. exists [], (Utf16.toLowerCase (Utf16.title b)). reflexivity.
Qed.

(** *** On Latin-1 text the two models of the search agree *)

Lemma lowerUnit_N_of_ascii (c : ascii) :
  N.eqb (N_of_ascii c) Utf16.capitalSigma = false
  /\ Utf16.lowerUnit (N_of_ascii c) = N_of_ascii (JS.lowerUnit c).
Proof.
  destruct c as [[] [] [] [] [] [] [] []]; split; reflexivity.
Qed.

Lemma lower_ofString (casedBehind : bool) (s : string) :
  Utf16.lower casedBehind (Utf16.ofString s) = Utf16.ofString (JS.toLowerCase s).
Proof.
  revert casedBehind. induction s as [|c s IH]; intros casedBehind; [reflexivity|].
  change (Utf16.ofString (String c s)) with (N_of_ascii c :: Utf16.ofString s).
  change (Utf16.ofString (JS.toLowerCase (String c s)))
    with (N_of_ascii (JS.lowerUnit c) :: Utf16.ofString (JS.toLowerCase s)).
  cbn [Utf16.lower].
  destruct (lowerUnit_N_of_ascii c) as [-> ->]. cbn [andb]. now rewrite IH.
Qed.

Lemma N_of_ascii_eqb (a b : ascii) :
  N.eqb (N_of_ascii a) (N_of_ascii b) = Ascii.eqb a b.
Proof.
  destruct (Ascii.eqb a b) eqn:E.
  - apply Ascii.eqb_eq in E. subst b. apply N.eqb_refl.
  - apply N.eqb_neq. intros H. apply Ascii.eqb_neq in E. apply E.
    now rewrite <- (ascii_N_embedding a), <- (ascii_N_embedding b), H.
Qed.

Lemma startsWith_ofString (s t : string) :
  Utf16.startsWith (Utf16.ofString s) (Utf16.ofString t) = JS.startsWith s t.
Proof.
  revert s. induction t as [|b t IH]; intros s; [reflexivity|].
  destruct s as [|a s]; [reflexivity|].
  change (Utf16.ofString (String a s)) with (N_of_ascii a :: Utf16.ofString s).
  change (Utf16.ofString (String b t)) with (N_of_ascii b :: Utf16.ofString t).
  cbn [Utf16.startsWith JS.startsWith]. now rewrite N_of_ascii_eqb, IH.
Qed.

Lemma includes_ofString (s t : string) :
  Utf16.includes (Utf16.ofString s) (Utf16.ofString t) = JS.includes s t.
Proof.
  induction s as [|a s IH].
  - exact (startsWith_ofString "" t).
  - change (Utf16.ofString (String a s)) with (N_of_ascii a :: Utf16.ofString s).
    cbn [Utf16.includes JS.includes].
    change (N_of_ascii a :: Utf16.ofString s) with (Utf16.ofString (String a s)).
    now rewrite startsWith_ofString, IH.
Qed.

Lemma ofString_inj (a b : string) : Utf16.ofString a = Utf16.ofString b -> a = b.
Proof.
  revert b. induction a as [|x a IH]; intros [|y b] H; try discriminate H.
  - reflexivity.
  - change (N_of_ascii x :: Utf16.ofString a = N_of_ascii y :: Utf16.ofString b) in H.
    injection H as Hx H. f_equal; [|now apply IH].
    now rewrite <- (ascii_N_embedding x), <- (ascii_N_embedding y), Hx.
Qed.

Lemma same_ofString (a b : string) :
  Utf16.same (Utf16.ofString a) (Utf16.ofString b) = String.eqb a b.
Proof.
  destruct (String.eqb a b) eqn:E.
  - apply String.eqb_eq in E. subst b. now apply Utf16_same_spec.
  - destruct (Utf16.same (Utf16.ofString a) (Utf16.ofString b)) eqn:E'; [|reflexivity].
    apply Utf16_same_spec, ofString_inj, String.eqb_eq in E'. congruence.
Qed.

Lemma filter_map {A B : Type} (f : B -> bool) (g : A -> B) (l : list A) :
  filter f (map g l) = map g (filter (fun a => f (g a)) l).
Proof.
  induction l as [|a l IH]; simpl; [reflexivity|].
  destruct (f (g a)); simpl; now rewrite IH.
Qed.

Lemma filteredBooks_ofString (st : State) :
  Utf16.filteredBooks (map Utf16.ofBook (books st))
    (Utf16.ofString (searchTerm st)) (Utf16.ofString (filterGenre st))
    (Utf16.ofString (filterStatus st))
  = map Utf16.ofBook (filteredBooks st).
Proof.
  unfold Utf16.filteredBooks, filteredBooks. rewrite filter_map. f_equal.
  apply filter_ext. intros b.
  unfold Utf16.matchesSearch, Utf16.matchesGenre, Utf16.matchesStatus,
         matchesSearch, matchesGenre, matchesStatus, Utf16.toLowerCase.
  cbn [Utf16.ofBook Utf16.title Utf16.author Utf16.genre Utf16.status].
  now rewrite !lower_ofString, !includes_ofString, !same_ofString.
Qed.

(** C4, as the code has it.  [filteredBooks] is the collection without the
    records that fail the query, the others in their order, and a record
    passes the query when the search text is empty or its lower case occurs
    in the lower case of the title or of the author, the genre criterion is
    the wildcard or its genre, and the status criterion is the wildcard or
    its status: so on Latin-1 text and so on UTF-16 text, and on Latin-1
    text the two agree.  On Dune followed by The Great Gatsby, the search
    text "great" with both wildcards selects The Great Gatsby alone. *)
Theorem filteredBooks_matches_query :
  (forall st : State,
      Spec.Kept (Spec.matchesQuery (searchTerm st) (filterGenre st) (filterStatus st))
                (books st) (filteredBooks st))
  /\ (forall (records : list Utf16.Book) (searchText genre status : Utf16.text),
        Spec.Kept (Utf16.matchesQuery searchText genre status)
                  records (Utf16.filteredBooks records searchText genre status))
  /\ (forall st : State,
        Utf16.filteredBooks (map Utf16.ofBook (books st))
          (Utf16.ofString (searchTerm st)) (Utf16.ofString (filterGenre st))
          (Utf16.ofString (filterStatus st))
        = map Utf16.ofBook (filteredBooks st))
  /\ (forall (i1 i2 d1 d2 a1 a2 : string) (y1 y2 : Z) (r1 r2 : option Z)
             (addOpen editOpen : bool) (editing : option Book) (fd : Form.t),
        let dune :=
          mkBook i1 "Dune" "Frank Herbert" "Science Fiction" y1 d1 reading r1 a1 in
        let gatsby :=
          mkBook i2 "The Great Gatsby" "F. Scott Fitzgerald" "Fiction" y2 d2 read r2 a2 in
        filteredBooks
          (mkState [dune; gatsby] "great" Spec.wildcard Spec.wildcard
                   addOpen editOpen editing fd)
        = [gatsby]).
Proof.
  split; [|split; [|split]].
  - intros st. unfold filteredBooks. apply filter_Kept. intros b.
    unfold Spec.matchesQuery.
    now rewrite !andb_true_iff, matchesSearch_spec, matchesGenre_spec,
                matchesStatus_spec, and_assoc.
  - intros records searchText g s. unfold Utf16.filteredBooks.
    apply filter_Kept. intros b.
    unfold Utf16.matchesQuery, Utf16.matchesGenre, Utf16.matchesStatus.
    now rewrite !andb_true_iff, !orb_true_iff, Utf16_matchesSearch_spec,
                !Utf16_same_spec, and_assoc.
  - exact filteredBooks_ofString.
  - intros. reflexivity.
Qed.

(** C4, as the specification has it, fails: the capital sigma occurs, as
    it is, at the end of the title, and the search for it does not find the
    book.  The lower case of the title ends in the final sigma, and the
    lower case of the search text is the small sigma. *)
Lemma final_sigma_not_found :
  let all := Utf16.ofString Spec.wildcard in
  let searchText := [Utf16.capitalSigma] in
  Utf16.title Utf16.hodosBook = ([927; 916; 927]%N ++ searchText ++ [])%list
  /\ Utf16.modelled (Utf16.title Utf16.hodosBook) = true
  /\ Utf16.modelled searchText = true
  /\ Utf16.toLowerCase (Utf16.title Utf16.hodosBook) = [959; 948; 959; 962]%N
  /\ Utf16.toLowerCase searchText = [963]%N
  /\ Utf16.filteredBooks [Utf16.hodosBook] searchText all all = []
  /\ Utf16.filteredBooks [Utf16.hodosBook] [927; 931]%N all all = [Utf16.hodosBook].
Proof.
  cbv zeta. repeat split.
Qed.

End View.

(** ** The minimal page *)

Section MinimalPage.

Import Minimal.

Lemma keptByDelete_spec (book b : Book) :
  keptByDelete book b = true <-> title b <> title book /\ author b <> author book.
Proof.
  unfold keptByDelete.
  now rewrite andb_true_iff, !negb_true_iff, !String.eqb_neq.
Qed.

(** C9.  [deleteBook] of a row leaves the collection without the records
    that fail "the title differs from the row's and the author differs from
    the row's", the others in their order: a record with the row's title or
    with the row's author is gone, the row's own record among them. *)
Theorem deleteBook_keeps_both_differ (book : Book) (bs : list Book) :
  Spec.Kept (fun b => title b <> title book /\ author b <> author book)
            bs (books (deleteBook book bs))
  /\ (forall b, In b bs ->
        title b = title book \/ author b = author book ->
        ~ In b (books (deleteBook book bs)))
  /\ ~ In book (books (deleteBook book bs)).
Proof.
  unfold deleteBook, commit. simpl. split; [| split].
  - apply filter_Kept. intros b. apply keptByDelete_spec.
  - intros b _ Hshare Hin. apply filter_In in Hin as [_ Hk].
    apply keptByDelete_spec in Hk. destruct Hk as [Ht Ha], Hshare; auto.
  - intros Hin. apply filter_In in Hin as [_ Hk].
    apply keptByDelete_spec in Hk. now destruct Hk as [Ht _].
Qed.

(** C10.  [onSubmit] of the edit form of a row keeps the length of the
    collection and, at every index, puts the submitted values where the
    record has the row's title and the row's author, and leaves the record
    that was there otherwise. *)
Theorem onSubmit_overwrites_same_title_and_author
        (book : Book) (bs : list Book) (values : Book) :
  let bs' := books (onSubmit book bs values) in
  List.length bs' = List.length bs
  /\ forall (i : nat) (b : Book),
       nth_error bs i = Some b ->
       (title b = title book /\ author b = author book ->
        nth_error bs' i = Some values)
       /\ (~ (title b = title book /\ author b = author book) ->
           nth_error bs' i = Some b).
Proof.
  unfold onSubmit, commit. simpl. split; [apply length_map|].
  intros i b Hi. rewrite nth_error_map, Hi. simpl.
  destruct (String.eqb_spec (title b) (title book)) as [Et | Nt];
    destruct (String.eqb_spec (author b) (author book)) as [Ea | Na]; simpl;
    split; intros H; try reflexivity; try (now elim H); now destruct H.
Qed.

End MinimalPage.

(** ** Printing a value and parsing it back *)

Section PrintParse.

Import JSON.

Lemma stringBody_escapeUnit (c : ascii) (r : string) :
  stringBody (escapeUnit c ++ r) = push (Some c) (stringBody r).
Proof.
  destruct c as [[] [] [] [] [] [] [] []]; reflexivity.
Qed.

Lemma stringBody_escape (s rest : string) :
  stringBody (escape s ++ String dquote rest) = Parsed (Some s, rest).
Proof.
  induction s as [|c s IH]; simpl.
  - reflexivity.
  - now rewrite append_assoc, stringBody_escapeUnit, IH.
Qed.

(** *** Numbers *)

Lemma digits_stop (rest : string) :
  endsNumber rest = true -> digits rest = ("", rest).
Proof.
  destruct rest as [|c rest]; simpl; [reflexivity|].
  intros H. apply negb_true_iff in H.
  repeat (apply orb_false_iff in H as [H _]). now rewrite H.
Qed.

Lemma digits_string_of_uint (u : Decimal.uint) (rest : string) :
  endsNumber rest = true ->
  digits (NilEmpty.string_of_uint u ++ rest) = (NilEmpty.string_of_uint u, rest).
Proof.
  intros H. induction u; simpl; try (now rewrite IHu).
  now apply digits_stop.
Qed.

Lemma fraction_stop (rest : string) :
  endsNumber rest = true -> fraction rest = Parsed (false, rest).
Proof.
  destruct rest as [|c rest]; simpl; [reflexivity|].
  intros H. apply negb_true_iff in H.
  apply orb_false_iff in H as [H _]. apply orb_false_iff in H as [H _].
  apply orb_false_iff in H as [_ H]. now rewrite H.
Qed.

Lemma exponent_stop (rest : string) :
  endsNumber rest = true -> exponent rest = Parsed (false, rest).
Proof.
  destruct rest as [|c rest]; simpl; [reflexivity|].
  intros H. apply negb_true_iff in H.
  apply orb_false_iff in H as [H HE]. apply orb_false_iff in H as [_ He].
  now rewrite He, HE.
Qed.

Lemma to_uint_leading (p : positive) : leadsNonzero (Pos.to_uint p) = true.
Proof.
  assert (Hnorm : Decimal.unorm (Pos.to_uint p) = Pos.to_uint p).
  { rewrite <- DecimalPos.Unsigned.to_of, DecimalPos.Unsigned.of_to. reflexivity. }
  destruct (Pos.to_uint p) as [|u|u|u|u|u|u|u|u|u|u] eqn:E; try reflexivity; exfalso.
  - now apply (DecimalPos.Unsigned.to_uint_nonnil p).
  - rewrite unorm_D0 in Hnorm.
    assert (Hu : Decimal.nzhead u = Decimal.Nil \/ Decimal.nzhead u <> Decimal.Nil)
      by (destruct (Decimal.nzhead u); [now left | right; discriminate ..]).
    destruct Hu as [Hu | Hu].
    + apply unorm_0 in Hu. rewrite Hu in Hnorm. injection Hnorm as <-.
      now apply (DecimalPos.Unsigned.to_uint_nonzero p).
    + rewrite (unorm_nzhead u Hu) in Hnorm. now apply (nzhead_nonzero u u).
Qed.

Lemma Z_of_to_uint (p : positive) : Z.of_uint (Pos.to_uint p) = Z.pos p.
Proof.
  unfold Z.of_uint. now rewrite DecimalPos.Unsigned.of_to.
Qed.

(** The printed digits of a positive number, read as the rest of a number
    after its sign. *)
Lemma number_digits (negative : bool) (p : positive) (rest : string) :
  endsNumber rest = true ->
  ('(ds, s2) <- integerPart (NilEmpty.string_of_uint (Pos.to_uint p) ++ rest) ;;
   '(hasFraction, s3) <- fraction s2 ;;
   '(hasExponent, s4) <- exponent s3 ;;
   Parsed (if hasFraction || hasExponent then None else integerValue negative ds, s4))
  = Parsed (Some (if negative then Z.neg p else Z.pos p), rest).
Proof.
  intros H.
  assert (Hv : integerValue negative (NilEmpty.string_of_uint (Pos.to_uint p))
               = Some (if negative then Z.neg p else Z.pos p)).
  { unfold integerValue. rewrite NilEmpty.usu, Z_of_to_uint. now destruct negative. }
  assert (Hl := to_uint_leading p).
  destruct (Pos.to_uint p) as [|u|u|u|u|u|u|u|u|u|u]; try discriminate Hl;
    simpl; simpl in Hv; rewrite (digits_string_of_uint u rest H); simpl;
    rewrite (fraction_stop rest H), (exponent_stop rest H); simpl;
    now rewrite Hv.
Qed.

Lemma number_Number_toString (z : Z) (rest : string) :
  endsNumber rest = true ->
  number (JS.Number_toString z ++ rest) = Parsed (Some z, rest).
Proof.
  intros H. destruct z as [|p|p].
  - unfold number. simpl.
    now rewrite (fraction_stop rest H), (exponent_stop rest H).
  - assert (Hl := to_uint_leading p).
    unfold number, JS.Number_toString. simpl Z.to_int. simpl NilZero.string_of_int.
    rewrite <- (number_digits false p rest H).
    unfold NilZero.string_of_uint.
    destruct (Pos.to_uint p) as [|u|u|u|u|u|u|u|u|u|u]; try discriminate Hl;
      reflexivity.
  - assert (Hl := to_uint_leading p).
    unfold number, JS.Number_toString. simpl Z.to_int. simpl NilZero.string_of_int.
    rewrite <- (number_digits true p rest H).
    unfold NilZero.string_of_uint.
    destruct (Pos.to_uint p) as [|u|u|u|u|u|u|u|u|u|u]; try discriminate Hl;
      reflexivity.
Qed.

(** *** Values *)

Lemma value_induction (P : value -> Prop) :
  P JNull ->
  (forall b, P (JBool b)) ->
  (forall z, P (JNum z)) ->
  (forall s, P (JStr s)) ->
  (forall items, Forall P items -> P (JArr items)) ->
  (forall members, Forall (fun m => P (snd m)) members -> P (JObj members)) ->
  forall v, P v.
Proof.
  intros Hnull Hbool Hnum Hstr Harr Hobj.
  fix IH 1. intros [|b|z|s|items|members].
  - exact Hnull.
  - apply Hbool.
  - apply Hnum.
  - apply Hstr.
  - apply Harr. induction items as [|v items IHitems]; constructor.
    + apply IH.
    + exact IHitems.
  - apply Hobj. induction members as [|m members IHmembers]; constructor.
    + apply IH.
    + exact IHmembers.
Qed.

Lemma parseValue_S (fuel : nat) (s : string) :
  parseValue (S fuel) s =
  match skipWhitespace s with
  | EmptyString => SyntaxError
  | String c r =>
      if Ascii.eqb c "{" then
        match skipWhitespace r with
        | EmptyString => SyntaxError
        | String c1 r1 =>
            if Ascii.eqb c1 "}" then Parsed (Some (JObj []), r1)
            else parseMembers fuel (String c1 r1) (Some [])
        end
      else if Ascii.eqb c "[" then
        match skipWhitespace r with
        | EmptyString => SyntaxError
        | String c1 r1 =>
            if Ascii.eqb c1 "]" then Parsed (Some (JArr []), r1)
            else parseElements fuel (String c1 r1) (Some [])
        end
      else if Ascii.eqb c dquote then
        '(x, rest) <- stringBody r ;; Parsed (option_map JStr x, rest)
      else if Ascii.eqb c "t" then literal "true" (JBool true) (String c r)
      else if Ascii.eqb c "f" then literal "false" (JBool false) (String c r)
      else if Ascii.eqb c "n" then literal "null" JNull (String c r)
      else
        '(z, rest) <- number (String c r) ;; Parsed (option_map JNum z, rest)
  end.
Proof. reflexivity. Qed.

Lemma parseElements_S (fuel : nat) (s : string) (acc : option (list value)) :
  parseElements (S fuel) s acc =
  ('(v, r) <- parseValue fuel s ;;
   match skipWhitespace r with
   | EmptyString => SyntaxError
   | String c r1 =>
       if Ascii.eqb c "," then parseElements fuel r1 (snoc v acc)
       else if Ascii.eqb c "]"
       then Parsed (option_map (fun l => JArr (rev l)) (snoc v acc), r1)
       else SyntaxError
   end).
Proof. reflexivity. Qed.

Lemma parseMembers_S (fuel : nat) (s : string) (acc : option (list (string * value))) :
  parseMembers (S fuel) s acc =
  match skipWhitespace s with
  | EmptyString => SyntaxError
  | String c r =>
      if Ascii.eqb c dquote then
        '(k, r1) <- stringBody r ;;
        match skipWhitespace r1 with
        | EmptyString => SyntaxError
        | String c1 r2 =>
            if Ascii.eqb c1 ":" then
              '(v, r3) <- parseValue fuel r2 ;;
              match skipWhitespace r3 with
              | EmptyString => SyntaxError
              | String c2 r4 =>
                  if Ascii.eqb c2 ","
                  then parseMembers fuel r4 (snoc (member k v) acc)
                  else if Ascii.eqb c2 "}"
                  then Parsed (option_map (fun l => JObj (rev l))
                                          (snoc (member k v) acc), r4)
                  else SyntaxError
              end
            else SyntaxError
        end
      else SyntaxError
  end.
Proof. reflexivity. Qed.

(** A printed number starts a number for [parseValue] too. *)
Lemma parseValue_number (fuel : nat) (z : Z) (rest : string) :
  parseValue (S fuel) (JS.Number_toString z ++ rest) =
  ('(z', r) <- number (JS.Number_toString z ++ rest) ;;
   Parsed (option_map JNum z', r)).
Proof.
  rewrite parseValue_S. unfold JS.Number_toString.
  destruct z as [|p|p]; simpl Z.to_int; simpl NilZero.string_of_int;
    try reflexivity.
  all: assert (Hl := to_uint_leading p); unfold NilZero.string_of_uint.
  all: destruct (Pos.to_uint p) as [|u|u|u|u|u|u|u|u|u|u]; try discriminate Hl;
    reflexivity.
Qed.

Local Arguments join : simpl never.

Lemma join_one (sep x : string) : join sep [x] = x.
Proof. reflexivity. Qed.

Lemma join_cons (sep x y : string) (l : list string) :
  join sep (x :: y :: l) = x ++ sep ++ join sep (y :: l).
Proof. reflexivity. Qed.

Lemma parseElements_join (items : list value) :
  Forall ReadsBack items ->
  forall (v : value) (fuel : nat) (acc : list value) (rest : string),
    ReadsBack v ->
    String.length (join "," (map stringify (v :: items))) < fuel ->
    parseElements fuel (join "," (map stringify (v :: items)) ++ String "]" rest)
                  (Some acc)
    = Parsed (Some (JArr (rev acc ++ v :: items)), rest).
Proof.
  induction 1 as [|v' items Hv' _ IH]; intros v fuel acc rest Hv Hfuel;
    (destruct fuel as [|fuel]; [inversion Hfuel|]); rewrite parseElements_S.
  - simpl map in Hfuel |- *. rewrite join_one in Hfuel |- *.
    rewrite Hv; [reflexivity | lia | reflexivity].
  - simpl map in Hfuel |- *. rewrite join_cons in Hfuel |- *.
    rewrite !length_append in Hfuel. rewrite !append_assoc.
    rewrite Hv; [| lia | reflexivity]. simpl.
    replace (rev acc ++ v :: v' :: items)%list with (rev (v :: acc) ++ v' :: items)%list
      by (simpl; now rewrite <- app_assoc).
    apply (IH v' fuel (v :: acc) rest Hv'). simpl in Hfuel |- *. lia.
Qed.

Lemma printMember_text (k : string) (v : value) (tail : string) :
  printMember stringify (k, v) ++ tail =
  String dquote (escape k ++ String dquote (String ":" (stringify v ++ tail))).
Proof.
  unfold printMember, quote. simpl. now rewrite !append_assoc.
Qed.

Lemma length_printMember (k : string) (v : value) :
  String.length (stringify v) < String.length (printMember stringify (k, v)).
Proof.
  unfold printMember, quote. simpl. rewrite !length_append. simpl. lia.
Qed.

(** One member, and what [parseMembers] does after it. *)
Lemma parseMembers_member (fuel : nat) (k : string) (v : value) (tail : string)
      (acc : list (string * value)) :
  ReadsBack v ->
  String.length (stringify v) <= fuel ->
  endsNumber tail = true ->
  parseMembers (S fuel) (printMember stringify (k, v) ++ tail) (Some acc) =
  match skipWhitespace tail with
  | EmptyString => SyntaxError
  | String c r =>
      if Ascii.eqb c ","
      then parseMembers fuel r (Some ((k, v) :: acc))
      else if Ascii.eqb c "}"
      then Parsed (Some (JObj (rev ((k, v) :: acc))), r)
      else SyntaxError
  end.
Proof.
  intros Hv Hfuel Htail.
  rewrite parseMembers_S, printMember_text.
  change (skipWhitespace (String dquote ?x)) with (String dquote x).
  change (Ascii.eqb dquote dquote) with true. cbv iota.
  rewrite stringBody_escape.
  change (skipWhitespace (String ":" ?x)) with (String ":" x).
  change (Ascii.eqb ":" ":") with true. cbv iota.
  rewrite (Hv fuel tail Hfuel Htail). reflexivity.
Qed.

Lemma parseMembers_join (members : list (string * value)) :
  Forall (fun m => ReadsBack (snd m)) members ->
  forall (m : string * value) (fuel : nat) (acc : list (string * value))
         (rest : string),
    ReadsBack (snd m) ->
    String.length (join "," (map (printMember stringify) (m :: members))) < fuel ->
    parseMembers fuel
      (join "," (map (printMember stringify) (m :: members)) ++ String "}" rest)
      (Some acc)
    = Parsed (Some (JObj (rev acc ++ m :: members)), rest).
Proof.
  induction 1 as [|m' members Hm' _ IH]; intros [k v] fuel acc rest Hv Hfuel;
    (destruct fuel as [|fuel]; [inversion Hfuel|]); simpl map in Hfuel |- *.
  - rewrite join_one in Hfuel |- *.
    assert (Hk := length_printMember k v).
    rewrite parseMembers_member; [reflexivity | exact Hv | lia | reflexivity].
  - rewrite join_cons in Hfuel |- *.
    assert (Hk := length_printMember k v).
    rewrite !length_append in Hfuel. rewrite !append_assoc.
    rewrite parseMembers_member; [| exact Hv | lia | reflexivity].
    change (skipWhitespace (String "," ?x)) with (String "," x).
    change (Ascii.eqb "," ",") with true. cbv iota.
    replace (rev acc ++ (k, v) :: m' :: members)%list
      with (rev ((k, v) :: acc) ++ m' :: members)%list
      by (simpl; now rewrite <- app_assoc).
    apply (IH m' fuel ((k, v) :: acc) rest Hm'). simpl in Hfuel |- *. lia.
Qed.

Lemma join_head (x : string) (l : list string) (tail : string) :
  exists tail', join "," (x :: l) ++ tail = x ++ tail'.
Proof.
  destruct l as [|y l].
  - exists tail. now rewrite join_one.
  - exists ("," ++ join "," (y :: l) ++ tail).
    now rewrite join_cons, !append_assoc.
Qed.

(** A printed value starts with a character that is not white space and
    closes no array. *)
Lemma stringify_head (v : value) (tail : string) :
  exists c r, stringify v ++ tail = String c r
              /\ isWhitespace c = false /\ Ascii.eqb c "]" = false.
Proof.
  destruct v as [|[]|z|s|items|members]; simpl;
    try (eexists; eexists; split; [reflexivity | split; reflexivity]).
  unfold JS.Number_toString.
  destruct z as [|p|p]; simpl;
    try (eexists; eexists; split; [reflexivity | split; reflexivity]).
  assert (Hl := to_uint_leading p). unfold NilZero.string_of_uint.
  destruct (Pos.to_uint p) as [|u|u|u|u|u|u|u|u|u|u]; try discriminate Hl; simpl;
    eexists; eexists; (split; [reflexivity | split; reflexivity]).
Qed.

Lemma stringify_nonempty (v : value) : 1 <= String.length (stringify v).
Proof.
  destruct (stringify_head v "") as (c & r & H & _).
  rewrite append_nil_r in H. rewrite H. simpl. lia.
Qed.

Theorem stringify_ReadsBack (v : value) : ReadsBack v.
Proof.
  induction v as [|b|z|s|items IH|members IH] using value_induction;
    intros fuel rest Hfuel Hrest;
    (destruct fuel as [|fuel];
     [match type of Hfuel with
      | String.length (stringify ?x) <= 0 =>
          pose proof (stringify_nonempty x); lia
      end|]).
  - reflexivity.
  - now destruct b.
  - simpl stringify. rewrite parseValue_number, number_Number_toString by exact Hrest.
    reflexivity.
  - rewrite parseValue_S. simpl stringify. unfold quote. simpl. rewrite append_assoc.
    simpl. now rewrite stringBody_escape.
  - destruct IH as [|v items Hv IH]; [reflexivity|].
    rewrite parseValue_S.
    change (stringify (JArr (v :: items)) ++ rest)
      with (String "[" ((join "," (map stringify (v :: items)) ++ "]") ++ rest)).
    rewrite append_assoc.
    change (skipWhitespace (String "[" ?x)) with (String "[" x).
    change (Ascii.eqb "[" "{") with false. change (Ascii.eqb "[" "[") with true.
    cbv iota.
    assert (Hjoin := parseElements_join items IH v fuel [] rest Hv).
    destruct (join_head (stringify v) (map stringify items) (String "]" rest))
      as [tail' Htail].
    destruct (stringify_head v tail') as (c & r & Hc & Hws & Hclose).
    change ("]" ++ rest) with (String "]" rest).
    simpl map in Hjoin |- *. rewrite Htail, Hc in Hjoin |- *.
    simpl skipWhitespace. rewrite Hws, Hclose. apply Hjoin.
    simpl in Hfuel. rewrite length_append in Hfuel. simpl in Hfuel.
    simpl map in Hfuel. lia.
  - destruct IH as [|[k v] members Hv IH]; [reflexivity|].
    rewrite parseValue_S.
    change (stringify (JObj ((k, v) :: members)) ++ rest)
      with (String "{" ((join "," (map (printMember stringify) ((k, v) :: members))
                         ++ "}") ++ rest)).
    rewrite append_assoc.
    change (skipWhitespace (String "{" ?x)) with (String "{" x).
    change (Ascii.eqb "{" "{") with true. cbv iota.
    assert (Hjoin := parseMembers_join members IH (k, v) fuel [] rest Hv).
    destruct (join_head (printMember stringify (k, v))
                        (map (printMember stringify) members) (String "}" rest))
      as [tail' Htail].
    change ("}" ++ rest) with (String "}" rest).
    simpl map in Hjoin |- *. rewrite Htail, printMember_text in Hjoin |- *.
    change (skipWhitespace (String dquote ?x)) with (String dquote x).
    change (Ascii.eqb dquote "}") with false. cbv iota.
    apply Hjoin.
    simpl in Hfuel. rewrite length_append in Hfuel. simpl in Hfuel.
    simpl map in Hfuel. lia.
Qed.

(** [JSON.parse(JSON.stringify(v))] returns [v]. *)
Theorem parse_stringify (v : value) : parse (stringify v) = Returns v.
Proof.
  unfold parse.
  rewrite <- (append_nil_r (stringify v)) at 2.
  rewrite stringify_ReadsBack; [reflexivity | lia | reflexivity].
Qed.

End PrintParse.

(** ** [JSON.parse] has fuel enough *)

Section Fuel.

Import JSON.

(** Case analysis on the scrutinee of the first [match] or [if] of a
    hypothesis. *)
Ltac split_match H :=
  match type of H with
  | context [match ?x with _ => _ end] => destruct x eqn:?
  end.

Lemma skipWhitespace_length (s : string) :
  String.length (skipWhitespace s) <= String.length s.
Proof.
  induction s as [|c s IH]; simpl; [lia|].
  destruct (isWhitespace c); simpl; lia.
Qed.

Lemma digits_length (s ds rest : string) :
  digits s = (ds, rest) ->
  String.length ds + String.length rest = String.length s.
Proof.
  revert ds rest. induction s as [|c s IH]; simpl; intros ds rest H.
  - injection H as <- <-. reflexivity.
  - destruct (isDigit c).
    + destruct (digits s) as [ds' rest'] eqn:E. injection H as <- <-.
      simpl. now rewrite (IH ds' rest' eq_refl).
    + injection H as <- <-. reflexivity.
Qed.

Lemma push_Parsed (c : option ascii) (r : Outcome (option string * string))
      (x : option string) (rest : string) :
  push c r = Parsed (x, rest) -> exists x', r = Parsed (x', rest).
Proof.
  unfold push. destruct r as [[x' rest']| |]; try discriminate.
  intros [= _ <-]. now exists x'.
Qed.

Lemma push_NoFuel (c : option ascii) (r : Outcome (option string * string)) :
  push c r = NoFuel -> r = NoFuel.
Proof.
  unfold push. now destruct r as [[x' rest']| |].
Qed.

Lemma stringBody_bounded (n : nat) :
  forall s : string,
    String.length s <= n ->
    stringBody s <> NoFuel
    /\ forall x rest, stringBody s = Parsed (x, rest) ->
                      String.length rest < String.length s.
Proof.
  induction n as [|n IH]; intros [|c s] Hn; simpl in Hn;
    try (split; [discriminate | intros x rest H; discriminate H]);
    try lia.
  assert (Hs : forall t, String.length t <= String.length s ->
                         stringBody t <> NoFuel
                         /\ forall x rest, stringBody t = Parsed (x, rest) ->
                                           String.length rest < String.length t)
    by (intros t Ht; apply IH; lia).
  simpl. split.
  - intros H. repeat split_match H; try discriminate H;
      apply push_NoFuel in H; revert H; apply Hs; subst; simpl; lia.
  - intros x rest H. repeat split_match H; try discriminate H;
      try (injection H as <- <-; simpl; lia);
      apply push_Parsed in H as [x' H]; apply Hs in H; subst; simpl in *; lia.
Qed.

Lemma stringBody_fuel (s : string) : stringBody s <> NoFuel.
Proof.
  now apply (stringBody_bounded (String.length s) s).
Qed.

Lemma stringBody_length (s : string) (x : option string) (rest : string) :
  stringBody s = Parsed (x, rest) -> String.length rest < String.length s.
Proof.
  now apply (stringBody_bounded (String.length s) s).
Qed.

Lemma integerPart_fuel (s : string) : integerPart s <> NoFuel.
Proof.
  unfold integerPart. intros H. repeat split_match H; discriminate H.
Qed.

Lemma fraction_fuel (s : string) : fraction s <> NoFuel.
Proof.
  unfold fraction. intros H. repeat split_match H; discriminate H.
Qed.

Lemma exponent_fuel (s : string) : exponent s <> NoFuel.
Proof.
  unfold exponent. intros H. repeat split_match H; discriminate H.
Qed.

Lemma number_fuel (s : string) : number s <> NoFuel.
Proof.
  unfold number.
  destruct (match s with
            | "" => (false, s)
            | String c r => if Ascii.eqb c "-" then (true, r) else (false, s)
            end) as [negative s1].
  destruct (integerPart s1) as [[ds s2]| |] eqn:Ei;
    [| discriminate | now apply integerPart_fuel in Ei].
  destruct (fraction s2) as [[hasFraction s3]| |] eqn:Ef;
    [| discriminate | now apply fraction_fuel in Ef].
  destruct (exponent s3) as [[hasExponent s4]| |] eqn:Ee;
    [discriminate | discriminate | now apply exponent_fuel in Ee].
Qed.

Lemma integerPart_length (s ds rest : string) :
  integerPart s = Parsed (ds, rest) -> String.length rest < String.length s.
Proof.
  unfold integerPart. intros H. repeat split_match H; try discriminate H.
  - injection H as <- <-. simpl. lia.
  - injection H as <- <-.
    match goal with E : digits _ = _ |- _ => apply digits_length in E end.
    simpl. lia.
Qed.

Lemma fraction_length (s : string) (b : bool) (rest : string) :
  fraction s = Parsed (b, rest) -> String.length rest <= String.length s.
Proof.
  unfold fraction. intros H. repeat split_match H; try discriminate H;
    injection H as <- <-; subst; simpl; try lia.
  match goal with E : digits _ = _ |- _ => apply digits_length in E end. lia.
Qed.

Lemma exponent_length (s : string) (b : bool) (rest : string) :
  exponent s = Parsed (b, rest) -> String.length rest <= String.length s.
Proof.
  unfold exponent. destruct s as [|c r]; [now intros [= _ <-]|].
  destruct (Ascii.eqb c "e" || Ascii.eqb c "E"); [|now intros [= _ <-]].
  set (r' := match r with
             | "" => r
             | String sg r2 => if Ascii.eqb sg "+" || Ascii.eqb sg "-" then r2 else r
             end).
  assert (Hr' : String.length r' <= String.length r).
  { subst r'. destruct r as [|sg r2]; [reflexivity|].
    destruct (Ascii.eqb sg "+" || Ascii.eqb sg "-"); simpl; lia. }
  destruct (digits r') as [[|d ds] rest'] eqn:E; [discriminate|].
  intros [= _ <-]. apply digits_length in E. simpl in *. lia.
Qed.

Lemma number_length (s : string) (z : option Z) (rest : string) :
  number s = Parsed (z, rest) -> String.length rest < String.length s.
Proof.
  unfold number. intros H.
  destruct (match s with
            | "" => (false, s)
            | String c r => if Ascii.eqb c "-" then (true, r) else (false, s)
            end) as [negative s1] eqn:Esign.
  assert (Hs1 : String.length s1 <= String.length s).
  { destruct s as [|c r]; [now injection Esign as _ <-|].
    destruct (Ascii.eqb c "-"); injection Esign as _ <-; simpl; lia. }
  destruct (integerPart s1) as [[ds s2]| |] eqn:Ei; try discriminate H.
  destruct (fraction s2) as [[hasFraction s3]| |] eqn:Ef; try discriminate H.
  destruct (exponent s3) as [[hasExponent s4]| |] eqn:Ee; try discriminate H.
  injection H as _ <-.
  apply integerPart_length in Ei. apply fraction_length in Ef.
  apply exponent_length in Ee. lia.
Qed.

Lemma dropPrefix_length (word s rest : string) :
  dropPrefix word s = Some rest ->
  String.length rest + String.length word = String.length s.
Proof.
  revert s. induction word as [|a word IH]; intros s H; simpl in H.
  - injection H as <-. simpl. lia.
  - destruct s as [|b s]; [discriminate H|].
    destruct (Ascii.eqb a b); [|discriminate H].
    apply IH in H. simpl. lia.
Qed.

Lemma literal_length (word : string) (v : value) (s : string)
      (x : option value) (rest : string) :
  literal word v s = Parsed (x, rest) ->
  String.length rest + String.length word = String.length s.
Proof.
  unfold literal. destruct (dropPrefix word s) as [r|] eqn:E; [|discriminate].
  intros [= _ <-]. now apply dropPrefix_length.
Qed.

Lemma literal_fuel (word : string) (v : value) (s : string) :
  literal word v s <> NoFuel.
Proof.
  unfold literal. now destruct (dropPrefix word s).
Qed.

(** Every parser leaves less than it was given. *)
Lemma parse_progress (fuel : nat) :
  (forall s v r, parseValue fuel s = Parsed (v, r) ->
                 String.length r < String.length s)
  /\ (forall s acc v r, parseElements fuel s acc = Parsed (v, r) ->
                        String.length r < String.length s)
  /\ (forall s acc v r, parseMembers fuel s acc = Parsed (v, r) ->
                        String.length r < String.length s).
Proof.
  induction fuel as [|fuel (IHv & IHe & IHm)]; [repeat split; discriminate|].
  split; [|split].
  - intros s v r. rewrite parseValue_S.
    pose proof (skipWhitespace_length s) as Hs.
    destruct (skipWhitespace s) as [|c t]; [discriminate|]. simpl in Hs.
    destruct (Ascii.eqb c "{").
    { pose proof (skipWhitespace_length t) as Ht.
      destruct (skipWhitespace t) as [|c1 t1]; [discriminate|]. simpl in Ht.
      destruct (Ascii.eqb c1 "}"); [intros [= _ <-]; lia|].
      intros H. apply IHm in H. simpl in H. lia. }
    destruct (Ascii.eqb c "[").
    { pose proof (skipWhitespace_length t) as Ht.
      destruct (skipWhitespace t) as [|c1 t1]; [discriminate|]. simpl in Ht.
      destruct (Ascii.eqb c1 "]"); [intros [= _ <-]; lia|].
      intros H. apply IHe in H. simpl in H. lia. }
    destruct (Ascii.eqb c dquote).
    { destruct (stringBody t) as [[x rest]| |] eqn:E; try discriminate.
      intros [= _ <-]. apply stringBody_length in E. lia. }
    destruct (Ascii.eqb c "t");
      [intros H; apply literal_length in H; simpl in H; lia|].
    destruct (Ascii.eqb c "f");
      [intros H; apply literal_length in H; simpl in H; lia|].
    destruct (Ascii.eqb c "n");
      [intros H; apply literal_length in H; simpl in H; lia|].
    destruct (number (String c t)) as [[z rest]| |] eqn:E; try discriminate.
    intros [= _ <-]. apply number_length in E. simpl in E. lia.
  - intros s acc v r. rewrite parseElements_S.
    destruct (parseValue fuel s) as [[x t]| |] eqn:E; try discriminate.
    apply IHv in E.
    pose proof (skipWhitespace_length t) as Ht.
    destruct (skipWhitespace t) as [|c t1]; [discriminate|]. simpl in Ht.
    destruct (Ascii.eqb c ",").
    { intros H. apply IHe in H. lia. }
    destruct (Ascii.eqb c "]"); [|discriminate].
    intros [= _ <-]. lia.
  - intros s acc v r. rewrite parseMembers_S.
    pose proof (skipWhitespace_length s) as Hs.
    destruct (skipWhitespace s) as [|c t]; [discriminate|]. simpl in Hs.
    destruct (Ascii.eqb c dquote); [|discriminate].
    destruct (stringBody t) as [[k t1]| |] eqn:Ek; try discriminate.
    apply stringBody_length in Ek.
    pose proof (skipWhitespace_length t1) as Ht1.
    destruct (skipWhitespace t1) as [|c1 t2]; [discriminate|]. simpl in Ht1.
    destruct (Ascii.eqb c1 ":"); [|discriminate].
    destruct (parseValue fuel t2) as [[x t3]| |] eqn:E; try discriminate.
    apply IHv in E.
    pose proof (skipWhitespace_length t3) as Ht3.
    destruct (skipWhitespace t3) as [|c2 t4]; [discriminate|]. simpl in Ht3.
    destruct (Ascii.eqb c2 ",").
    { intros H. apply IHm in H. lia. }
    destruct (Ascii.eqb c2 "}"); [|discriminate].
    intros [= _ <-]. lia.
Qed.

(** With fuel above twice the length of the text, no parser runs out. *)
Lemma parse_fuel (fuel : nat) :
  (forall s, 2 * String.length s + 1 <= fuel -> parseValue fuel s <> NoFuel)
  /\ (forall s acc, 2 * String.length s + 2 <= fuel ->
                    parseElements fuel s acc <> NoFuel)
  /\ (forall s acc, 2 * String.length s + 2 <= fuel ->
                    parseMembers fuel s acc <> NoFuel).
Proof.
  induction fuel as [|fuel (IHv & IHe & IHm)]; [repeat split; intros; lia|].
  destruct (parse_progress fuel) as (Pv & Pe & Pm).
  split; [|split].
  - intros s Hfuel. rewrite parseValue_S.
    pose proof (skipWhitespace_length s) as Hs.
    destruct (skipWhitespace s) as [|c t]; [discriminate|]. simpl in Hs.
    destruct (Ascii.eqb c "{").
    { pose proof (skipWhitespace_length t) as Ht.
      destruct (skipWhitespace t) as [|c1 t1] eqn:Et; [discriminate|].
      destruct (Ascii.eqb c1 "}"); [discriminate|].
      apply IHm. simpl in *. lia. }
    destruct (Ascii.eqb c "[").
    { pose proof (skipWhitespace_length t) as Ht.
      destruct (skipWhitespace t) as [|c1 t1] eqn:Et; [discriminate|].
      destruct (Ascii.eqb c1 "]"); [discriminate|].
      apply IHe. simpl in *. lia. }
    destruct (Ascii.eqb c dquote).
    { pose proof (stringBody_fuel t) as Hb.
      destruct (stringBody t) as [[x rest]| |]; [discriminate | discriminate | easy]. }
    destruct (Ascii.eqb c "t"); [apply literal_fuel|].
    destruct (Ascii.eqb c "f"); [apply literal_fuel|].
    destruct (Ascii.eqb c "n"); [apply literal_fuel|].
    pose proof (number_fuel (String c t)) as Hn.
    destruct (number (String c t)) as [[z rest]| |];
      [discriminate | discriminate | easy].
  - intros s acc Hfuel. rewrite parseElements_S.
    pose proof (IHv s) as Hv.
    destruct (parseValue fuel s) as [[x t]| |] eqn:E;
      [| discriminate | apply Hv; lia].
    apply Pv in E.
    pose proof (skipWhitespace_length t) as Ht.
    destruct (skipWhitespace t) as [|c t1]; [discriminate|]. simpl in Ht.
    destruct (Ascii.eqb c ","); [apply IHe; lia|].
    destruct (Ascii.eqb c "]"); discriminate.
  - intros s acc Hfuel. rewrite parseMembers_S.
    pose proof (skipWhitespace_length s) as Hs.
    destruct (skipWhitespace s) as [|c t]; [discriminate|]. simpl in Hs.
    destruct (Ascii.eqb c dquote); [|discriminate].
    pose proof (stringBody_fuel t) as Hb.
    destruct (stringBody t) as [[k t1]| |] eqn:Ek; [| discriminate | easy].
    apply stringBody_length in Ek.
    pose proof (skipWhitespace_length t1) as Ht1.
    destruct (skipWhitespace t1) as [|c1 t2]; [discriminate|]. simpl in Ht1.
    destruct (Ascii.eqb c1 ":"); [|discriminate].
    pose proof (IHv t2) as Hv.
    destruct (parseValue fuel t2) as [[x t3]| |] eqn:E;
      [| discriminate | apply Hv; lia].
    apply Pv in E.
    pose proof (skipWhitespace_length t3) as Ht3.
    destruct (skipWhitespace t3) as [|c2 t4]; [discriminate|]. simpl in Ht3.
    destruct (Ascii.eqb c2 ","); [apply IHm; lia|].
    destruct (Ascii.eqb c2 "}"); discriminate.
Qed.

(** [parse] gives its parser fuel enough: when it reports [Throws], the
    text is one the grammar refuses. *)
Theorem parse_never_out_of_fuel (text : string) :
  parseValue (2 * String.length text + 2) text <> NoFuel.
Proof.
  apply parse_fuel. lia.
Qed.

End Fuel.

(** ** The [localStorage] slot of the rich page *)

Section Storage.

Import Library.

Lemma truthy_stringify (v : JSON.value) : JS.truthy (JSON.stringify v) = true.
Proof.
  pose proof (stringify_nonempty v) as H.
  destruct (JSON.stringify v); [simpl in H; lia | reflexivity].
Qed.

(** *** Lookup in an object whose keys are distinct *)





(** *** The objects of the books *)


Lemma toJSON_ofBook (b : Book) :
  toJSON b = JSON.JObj (InMemory.members (InMemory.ofBook b)).
Proof.
  destruct b as [i t a g y d s r da]. now destruct r.
Qed.

Lemma saveBooks_ofBook (bs : list Book) :
  saveBooks bs = InMemory.saveBooks (map InMemory.ofBook bs).
Proof.
  unfold saveBooks, InMemory.saveBooks, booksToJSON. rewrite map_map.
  do 2 f_equal. apply map_ext. exact toJSON_ofBook.
Qed.






(** *** The effect that runs on mount *)

Lemma loadBooks_Raised (saved : string) :
  loadBooks (Some saved) = Raised <-> saved <> "" /\ JSON.parse saved = JSON.Throws.
Proof.
  unfold loadBooks, seed. destruct saved as [|c saved]; cbn [JS.truthy].
  - split; [discriminate | intros [H _]; now elim H].
  - destruct (JSON.parse (String c saved)); (split; [intros H | intros [_ H]]);
      try discriminate H; try reflexivity.
    split; [discriminate | reflexivity].
Qed.

Lemma loadBooks_Restored (saved : string) (v : JSON.value) :
  loadBooks (Some saved) = Restored v <-> JSON.parse saved = JSON.Returns v.
Proof.
  unfold loadBooks, seed. destruct saved as [|c saved]; cbn [JS.truthy].
  - split; discriminate.
  - destruct (JSON.parse (String c saved)); split; try discriminate;
      intros H; injection H as ->; reflexivity.
Qed.

Lemma loadBooks_RestoredUnmodelled (saved : string) :
  loadBooks (Some saved) = RestoredUnmodelled
  <-> JSON.parse saved = JSON.ReturnsUnmodelled.
Proof.
  unfold loadBooks, seed. destruct saved as [|c saved]; cbn [JS.truthy].
  - split; discriminate.
  - destruct (JSON.parse (String c saved)); split; try discriminate; reflexivity.
Qed.

Lemma loadBooks_Seeded (slot : option string) :
  (exists bs stored, loadBooks slot = Seeded bs stored)
  <-> slot = None \/ slot = Some "".
Proof.
  split.
  - intros (bs & stored & H). destruct slot as [[|c saved]|]; auto.
    unfold loadBooks in H. cbn [JS.truthy] in H.
    destruct (JSON.parse (String c saved)); discriminate H.
  - intros [-> | ->]; exists sampleBooks, (saveBooks sampleBooks); reflexivity.
Qed.

Lemma loadBooks_seed (slot : option string) (bs : list Book) (stored : string) :
  loadBooks slot = Seeded bs stored -> bs = sampleBooks /\ stored = saveBooks sampleBooks.
Proof.
  intros H.
  assert (Hslot : slot = None \/ slot = Some "")
    by (apply loadBooks_Seeded; now exists bs, stored).
  destruct Hslot as [-> | ->]; injection H as <- <-; split; reflexivity.
Qed.

(** A value in print, followed by more than white space, is refused. *)
Lemma parse_trailing (v : JSON.value) (rest : string) (c : ascii) (r : string) :
  JSON.endsNumber rest = true ->
  JSON.skipWhitespace rest = String c r ->
  JSON.parse (JSON.stringify v ++ rest) = JSON.Throws.
Proof.
  intros Hends Hrest. unfold JSON.parse.
  rewrite stringify_ReadsBack; [now rewrite Hrest | | exact Hends].
  rewrite length_append. lia.
Qed.

(** C2, as the code has it.  The effect raises the parser's error, and
    does not call [setBooks], exactly when the slot holds a text, not the
    empty one, that [JSON.parse] refuses; a value in print followed by more
    than white space is such a text.  It calls [setBooks] with a value
    exactly when [JSON.parse] returns that value for the text, whatever the
    shape of the value.  It installs the samples, and stores them, exactly
    when the slot is absent or holds the empty text. *)
Theorem loadBooks_raises_on_corrupt_slot :
  (forall saved : string,
      loadBooks (Some saved) = Raised
      <-> saved <> "" /\ JSON.parse saved = JSON.Throws)
  /\ (forall (v : JSON.value) (rest : string) (c : ascii) (r : string),
        JSON.endsNumber rest = true ->
        JSON.skipWhitespace rest = String c r ->
        loadBooks (Some (JSON.stringify v ++ rest)) = Raised)
  /\ (forall (saved : string) (v : JSON.value),
        loadBooks (Some saved) = Restored v <-> JSON.parse saved = JSON.Returns v)
  /\ (forall saved : string,
        loadBooks (Some saved) = RestoredUnmodelled
        <-> JSON.parse saved = JSON.ReturnsUnmodelled)
  /\ (forall slot : option string,
        (exists bs stored, loadBooks slot = Seeded bs stored)
        <-> slot = None \/ slot = Some "")
  /\ (forall (slot : option string) (bs : list Book) (stored : string),
        loadBooks slot = Seeded bs stored ->
        bs = sampleBooks /\ stored = saveBooks sampleBooks).
Proof.
  split; [exact loadBooks_Raised|].
  split; [|split; [exact loadBooks_Restored|split; [exact loadBooks_RestoredUnmodelled|
           split; [exact loadBooks_Seeded | exact loadBooks_seed]]]].
  intros v rest c r Hends Hrest. apply loadBooks_Raised. split.
  - pose proof (truthy_stringify v) as H.
    destruct (JSON.stringify v); [discriminate H | discriminate].
  - now apply (parse_trailing v rest c r).
Qed.

(** C2, as the specification has it, fails: on a text cut short the effect
    raises the parser's error; it does not go through with an empty
    collection. *)
Lemma loadBooks_truncated_slot :
  JSON.parse Sample.truncated = JSON.Throws
  /\ loadBooks (Some Sample.truncated) = Raised
  /\ ~ Spec.fallsBackToEmpty (loadBooks (Some Sample.truncated)).
Proof.
  assert (H : loadBooks (Some Sample.truncated) = Raised) by reflexivity.
  split; [reflexivity|]. split; [exact H|].
  rewrite H. intros [H' | [stored H']]; discriminate H'.
Qed.

End Storage.

(** ** The theorems at the sample inputs *)

Section Samples.

Import Library.

(** C1, as the specification has it, fails: two adds that read the same
    millisecond from the clock give their records the same id. *)
Lemma add_twice_in_one_millisecond :
  let st1 := Spec.add Sample.shelf (Sample.clock, Sample.emma) in
  let st2 := Spec.add st1 (Sample.clock, Sample.persuasion) in
  Spec.ids st1 = ["1"; "2"; "1700000000000"]
  /\ Spec.ids st2 = ["1"; "2"; "1700000000000"; "1700000000000"]
  /\ In (id (newBook Sample.clock Sample.persuasion)) (Spec.ids st1)
  /\ ~ NoDup (Spec.ids st2).
Proof.
  assert (H2 : Spec.ids (Spec.add (Spec.add Sample.shelf (Sample.clock, Sample.emma))
                                  (Sample.clock, Sample.persuasion))
               = ["1"; "2"; "1700000000000"; "1700000000000"]) by reflexivity.
  cbv zeta. split; [reflexivity|]. split; [exact H2|]. split.
  - right. right. left. reflexivity.
  - rewrite H2. intros H.
    apply NoDup_cons_iff in H as [_ H]. apply NoDup_cons_iff in H as [_ H].
    apply NoDup_cons_iff in H as [H _]. apply H. now left.
Qed.

(** C5, as the specification has it, fails: on the collection the two
    adds above leave, an edit of the Emma record also overwrites the
    Persuasion record, which carries the same id. *)
Lemma handleEditBook_overwrites_same_id :
  let st := setFormData Sample.revised (openEditDialog Sample.emmaRecord Sample.twins) in
  let st' := handleEditBook Sample.clock st in
  nth_error (books st) 2 = Some Sample.emmaRecord
  /\ nth_error (books st) 3 = Some Sample.persuasionRecord
  /\ id Sample.persuasionRecord = id Sample.emmaRecord
  /\ editingBook st = Some Sample.emmaRecord
  /\ Form.title (formData st) <> ""
  /\ Form.author (formData st) <> ""
  /\ Form.genre (formData st) <> ""
  /\ map title (books st) = ["The Great Gatsby"; "Dune"; "Emma"; "Persuasion"]
  /\ map title (books st') = ["The Great Gatsby"; "Dune"; "Emma (rev)"; "Emma (rev)"]
  /\ nth_error (books st') 3 <> Some Sample.persuasionRecord.
Proof.
  cbv zeta.
  split; [reflexivity|]. split; [reflexivity|]. split; [reflexivity|].
  split; [reflexivity|].
  split; [discriminate|]. split; [discriminate|]. split; [discriminate|].
  split; [reflexivity|]. split; [reflexivity|].
  intros H. apply (f_equal (option_map title)) in H. discriminate H.
Qed.

Lemma addAll_ids_unique_witness :
  NoDup (Spec.ids (Spec.addAll [(Sample.clock, Sample.emma);
                                (Sample.later, Sample.persuasion)]
                               Sample.shelf)).
Proof.
  apply addAll_ids_unique.
  - repeat constructor; simpl; intuition discriminate.
  - repeat constructor; simpl; intuition discriminate.
  - intros request [<- | [<- | []]]; simpl; intuition discriminate.
Defined.

Lemma loadBooks_raises_on_corrupt_slot_witness :
  Sample.truncated <> ""
  /\ JSON.parse Sample.truncated = JSON.Throws
  /\ loadBooks (Some Sample.truncated) = Raised
  /\ JSON.endsNumber " this is not JSON" = true
  /\ JSON.skipWhitespace " this is not JSON" = "this is not JSON"
  /\ loadBooks (Some (JSON.stringify (JSON.JArr []) ++ " this is not JSON")) = Raised
  /\ JSON.parse "{}" = JSON.Returns (JSON.JObj [])
  /\ loadBooks (Some "{}") = Restored (JSON.JObj [])
  /\ JSON.parse "[1.5]" = JSON.ReturnsUnmodelled
  /\ loadBooks (Some "[1.5]") = RestoredUnmodelled
  /\ (exists bs stored, loadBooks (Some "") = Seeded bs stored)
  /\ loadBooks None = Seeded sampleBooks (saveBooks sampleBooks).
Proof.
  assert (Hne : Sample.truncated <> "") by discriminate.
  assert (Hparse : JSON.parse Sample.truncated = JSON.Throws) by reflexivity.
  assert (Hends : JSON.endsNumber " this is not JSON" = true) by reflexivity.
  assert (Hrest : JSON.skipWhitespace " this is not JSON" = "this is not JSON")
    by reflexivity.
  assert (Hobject : JSON.parse "{}" = JSON.Returns (JSON.JObj [])) by reflexivity.
  assert (Hfraction : JSON.parse "[1.5]" = JSON.ReturnsUnmodelled) by reflexivity.
  destruct loadBooks_raises_on_corrupt_slot
    as (Hraised & Htrailing & Hrestored & Hunmodelled & Hseeded & Hseed).
  assert (Hempty : exists bs stored, loadBooks (Some "") = Seeded bs stored)
    by (apply Hseeded; right; reflexivity).
  split; [exact Hne|]. split; [exact Hparse|].
  split; [apply Hraised; split; [exact Hne | exact Hparse]|].
  split; [exact Hends|]. split; [exact Hrest|].
  split; [exact (Htrailing (JSON.JArr []) _ _ _ Hends Hrest)|].
  split; [exact Hobject|]. split; [apply Hrestored; exact Hobject|].
  split; [exact Hfraction|]. split; [apply Hunmodelled; exact Hfraction|].
  split; [exact Hempty|].
  destruct (proj2 (Hseeded None) (or_introl eq_refl)) as (bs & stored & Hnone).
  destruct (Hseed None bs stored Hnone) as [-> ->]. exact Hnone.
Defined.


Lemma handleAddBook_rejects_missing_field_witness :
  let st := setFormData Sample.untitled Sample.shelf in
  Form.title (formData st) = ""
  /\ handleAddBook Sample.clock st = st.
Proof.
  cbv zeta. split; [reflexivity|].
  apply (handleAddBook_rejects_missing_field Sample.clock
           (setFormData Sample.untitled Sample.shelf)).
  left. reflexivity.
Defined.

Lemma handleEditBook_replaces_in_place_witness :
  let st := setFormData Sample.persuasion (openEditDialog Sample.gatsby Sample.shelf) in
  let st' := handleEditBook Sample.clock st in
  editingBook st = Some Sample.gatsby
  /\ Form.title (formData st) <> ""
  /\ Form.author (formData st) <> ""
  /\ Form.genre (formData st) <> ""
  /\ nth_error (books st) 0 = Some Sample.gatsby
  /\ nth_error (books st) 1 = Some Sample.dune
  /\ NoDup (map id (books st))
  /\ List.length (books st') = List.length (books st)
  /\ (exists book' : Book,
        nth_error (books st') 0 = Some book'
        /\ id book' = "1"
        /\ dateAdded book' = "2024-01-15"
        /\ title book' = "Persuasion")
  /\ nth_error (books st') 1 = Some Sample.dune.
Proof.
  cbv zeta.
  assert (He : editingBook
                 (setFormData Sample.persuasion
                    (openEditDialog Sample.gatsby Sample.shelf))
               = Some Sample.gatsby) by reflexivity.
  assert (Ht : Form.title Sample.persuasion <> "") by discriminate.
  assert (Ha : Form.author Sample.persuasion <> "") by discriminate.
  assert (Hg : Form.genre Sample.persuasion <> "") by discriminate.
  assert (Hnodup : NoDup (map id (books Sample.shelf)))
    by (repeat constructor; simpl; intuition discriminate).
  destruct (handleEditBook_replaces_in_place Sample.clock _ Sample.gatsby He Ht Ha Hg)
    as (Hlen & Hat & Hothers).
  destruct (Hat 0 Sample.gatsby eq_refl) as (book' & H0 & Hid & Hdate & Hsame & _).
  destruct (Hsame eq_refl) as (Htitle & _).
  split; [exact He|]. split; [exact Ht|]. split; [exact Ha|]. split; [exact Hg|].
  split; [reflexivity|]. split; [reflexivity|]. split; [exact Hnodup|].
  split; [exact Hlen|]. split.
  - exists book'. split; [exact H0|]. split; [exact Hid|]. split; [exact Hdate|].
    exact Htitle.
  - apply (Hothers Hnodup 0 1 Sample.gatsby Sample.dune eq_refl eq_refl eq_refl).
    discriminate.
Defined.

Lemma handleDeleteBook_idempotent_witness :
  (forall b, In b (books Sample.shelf) -> id b <> "3")
  /\ handleDeleteBook "3" Sample.shelf = Sample.shelf.
Proof.
  assert (H : forall b, In b (books Sample.shelf) -> id b <> "3")
    by (intros b [<- | [<- | []]]; discriminate).
  split; [exact H|].
  exact (proj2 (handleDeleteBook_idempotent "3" Sample.shelf) H).
Defined.

Lemma summarize_counts_witness :
  summarize sampleBooks = mkSummary 2 1 1 0.
Proof.
  apply (summarize_counts sampleBooks 1 1 0). apply Permutation_refl.
Defined.

Lemma deleteBook_keeps_both_differ_witness :
  let emma := Minimal.mkBook "Emma" "Jane Austen" None in
  let persuasion := Minimal.mkBook "Persuasion" "Jane Austen" (Some 4%Z) in
  In persuasion Sample.rows
  /\ Minimal.author persuasion = Minimal.author emma
  /\ ~ In persuasion (Minimal.books (Minimal.deleteBook emma Sample.rows)).
Proof.
  cbv zeta.
  assert (Hin : In (Minimal.mkBook "Persuasion" "Jane Austen" (Some 4%Z)) Sample.rows)
    by (right; right; left; reflexivity).
  split; [exact Hin|]. split; [reflexivity|].
  apply (proj1 (proj2 (deleteBook_keeps_both_differ
                         (Minimal.mkBook "Emma" "Jane Austen" None) Sample.rows))
               _ Hin).
  right. reflexivity.
Defined.

Lemma onSubmit_overwrites_same_title_and_author_witness :
  let emma := Minimal.mkBook "Emma" "Jane Austen" None in
  let dune := Minimal.mkBook "Dune" "Frank Herbert" (Some 5%Z) in
  let rated := Minimal.mkBook "Emma" "Jane Austen" (Some 5%Z) in
  let rows' := Minimal.books (Minimal.onSubmit emma Sample.rows rated) in
  nth_error Sample.rows 0 = Some emma
  /\ nth_error Sample.rows 1 = Some dune
  /\ nth_error rows' 0 = Some rated
  /\ nth_error rows' 1 = Some dune.
Proof.
  cbv zeta.
  destruct (onSubmit_overwrites_same_title_and_author
              (Minimal.mkBook "Emma" "Jane Austen" None) Sample.rows
              (Minimal.mkBook "Emma" "Jane Austen" (Some 5%Z))) as [_ Hat].
  destruct (Hat 0 (Minimal.mkBook "Emma" "Jane Austen" None) eq_refl) as [Hsame _].
  destruct (Hat 1 (Minimal.mkBook "Dune" "Frank Herbert" (Some 5%Z)) eq_refl)
    as [_ Hother].
  split; [reflexivity|]. split; [reflexivity|].
  split; [apply Hsame; split; reflexivity|].
  apply Hother. intros [H _]. discriminate H.
Defined.

End Samples.

(** ** More on the handlers of the rich page *)

Section Handlers.

Import Library LibraryForms.

Lemma books_handleAddBook (clk : Clock) (st : State) :
  missingRequired (formData st) = false ->
  books (handleAddBook clk st) = (books st ++ [newBook clk (formData st)])%list.
Proof.
  intros Hm. unfold handleAddBook. now rewrite Hm.
Qed.

(** X1.  An add with title, author and genre filled puts the new record
    at the end of the collection and leaves every record at its index; it
    closes the add dialog and blanks the form, and touches neither the
    search text, the filters nor the book being edited. *)
Theorem handleAddBook_appends (clk : Clock) (st : State) :
  Form.title (formData st) <> "" ->
  Form.author (formData st) <> "" ->
  Form.genre (formData st) <> "" ->
  let st' := handleAddBook clk st in
  (forall (i : nat) (b : Book),
      nth_error (books st) i = Some b -> nth_error (books st') i = Some b)
  /\ nth_error (books st') (List.length (books st)) = Some (newBook clk (formData st))
  /\ List.length (books st') = S (List.length (books st))
  /\ isAddDialogOpen st' = false
  /\ formData st' = blankForm clk
  /\ searchTerm st' = searchTerm st
  /\ filterGenre st' = filterGenre st
  /\ filterStatus st' = filterStatus st
  /\ isEditDialogOpen st' = isEditDialogOpen st
  /\ editingBook st' = editingBook st.
Proof.
  intros Ht Ha Hg st'.
  assert (Hm : missingRequired (formData st) = false)
    by (apply missingRequired_false; auto).
  assert (Hb := books_handleAddBook clk st Hm). fold st' in Hb.
  split; [|split; [|split]].
  - intros i b Hi. rewrite Hb, nth_error_app1; [exact Hi|].
    apply nth_error_Some. now rewrite Hi.
  - rewrite Hb, nth_error_app2, Nat.sub_diag by lia. reflexivity.
  - rewrite Hb, length_app. simpl. lia.
  - subst st'. unfold handleAddBook. rewrite Hm. repeat split.
Qed.

Lemma handleAddBook_appends_witness :
  let st := setFormData Sample.emma Sample.shelf in
  Form.title (formData st) <> ""
  /\ nth_error (books (handleAddBook Sample.clock st)) 2
     = Some (newBook Sample.clock Sample.emma).
Proof.
  cbv zeta.
  assert (Ht : Form.title Sample.emma <> "") by discriminate.
  assert (Ha : Form.author Sample.emma <> "") by discriminate.
  assert (Hg : Form.genre Sample.emma <> "") by discriminate.
  split; [exact Ht|].
  exact (proj1 (proj2 (handleAddBook_appends Sample.clock
                         (setFormData Sample.emma Sample.shelf) Ht Ha Hg))).
Defined.

Lemma filter_snoc_out {A : Type} (f : A -> bool) (l : list A) (x : A) :
  f x = false -> filter f (l ++ [x]) = filter f l.
Proof.
  intros Hx. rewrite filter_app. simpl. rewrite Hx. apply List.app_nil_r.
Qed.

(** X2.  Deleting the id of the record an add has just made removes that
    record and, with it, every older record of the same id; when no older
    record has that id, the collection is the one before the add. *)
Theorem handleAddBook_then_handleDeleteBook (clk : Clock) (st : State) :
  Form.title (formData st) <> "" ->
  Form.author (formData st) <> "" ->
  Form.genre (formData st) <> "" ->
  let added := newBook clk (formData st) in
  let st' := handleDeleteBook (id added) (handleAddBook clk st) in
  Spec.Kept (fun b => id b <> id added) (books st) (books st')
  /\ (~ In (id added) (Spec.ids st) -> books st' = books st).
Proof.
  intros Ht Ha Hg added st'.
  assert (Hm : missingRequired (formData st) = false)
    by (apply missingRequired_false; auto).
  assert (Hb : books st' = filter (fun b => negb (String.eqb (id b) (id added))) (books st)).
  { subst st'. unfold handleDeleteBook. simpl.
    rewrite (books_handleAddBook clk st Hm). apply filter_snoc_out.
    fold added. now rewrite String.eqb_refl. }
  rewrite Hb. split.
  - apply filter_Kept. intros b. now rewrite negb_true_iff, String.eqb_neq.
  - intros Hfresh. apply filter_unchanged. intros b Hin.
    apply negb_true_iff, String.eqb_neq. intros E. apply Hfresh.
    rewrite <- E. now apply in_map.
Qed.

Lemma handleAddBook_then_handleDeleteBook_witness :
  let st := setFormData Sample.emma Sample.shelf in
  ~ In (id (newBook Sample.clock Sample.emma)) (Spec.ids st)
  /\ books (handleDeleteBook (id (newBook Sample.clock Sample.emma))
                             (handleAddBook Sample.clock st))
     = books st.
Proof.
  cbv zeta.
  assert (Ht : Form.title Sample.emma <> "") by discriminate.
  assert (Ha : Form.author Sample.emma <> "") by discriminate.
  assert (Hg : Form.genre Sample.emma <> "") by discriminate.
  assert (Hfresh : ~ In (id (newBook Sample.clock Sample.emma))
                        (Spec.ids (setFormData Sample.emma Sample.shelf)))
    by (simpl; intuition discriminate).
  split; [exact Hfresh|].
  exact (proj2 (handleAddBook_then_handleDeleteBook Sample.clock
                  (setFormData Sample.emma Sample.shelf) Ht Ha Hg) Hfresh).
Defined.

Lemma handleEditBook_missingRequired (clk : Clock) (st : State) :
  missingRequired (formData st) = true -> handleEditBook clk st = st.
Proof.
  intros H. unfold handleEditBook. rewrite H. now destruct (editingBook st).
Qed.

(** X3.  An update with no book being edited, or with title, author or
    genre empty, is refused: the state is left as it was, the collection
    unchanged and the edit dialog as open as before. *)
Theorem handleEditBook_rejects (clk : Clock) (st : State) :
  editingBook st = None
  \/ Form.title (formData st) = ""
  \/ Form.author (formData st) = ""
  \/ Form.genre (formData st) = "" ->
  handleEditBook clk st = st.
Proof.
  intros [H | H].
  - unfold handleEditBook. now rewrite H.
  - apply handleEditBook_missingRequired. now apply missingRequired_true.
Qed.

Lemma handleEditBook_rejects_witness :
  let st := setFormData Sample.untitled (openEditDialog Sample.gatsby Sample.shelf) in
  Form.title (formData st) = ""
  /\ handleEditBook Sample.clock st = st.
Proof.
  cbv zeta. split; [reflexivity|].
  apply (handleEditBook_rejects Sample.clock
           (setFormData Sample.untitled (openEditDialog Sample.gatsby Sample.shelf))).
  right. left. reflexivity.
Defined.

Lemma map_unchanged {A : Type} (f : A -> A) (l : list A) :
  (forall a, In a l -> f a = a) -> map f l = l.
Proof.
  intros H. rewrite <- (map_id l) at 2. now apply map_ext_in.
Qed.

(** X4.  An update whose edited id no record of the collection has
    changes no record; it still closes the edit dialog, forgets the book
    being edited and blanks the form. *)
Theorem handleEditBook_unknown_id (clk : Clock) (st : State) (editing : Book) :
  editingBook st = Some editing ->
  Form.title (formData st) <> "" ->
  Form.author (formData st) <> "" ->
  Form.genre (formData st) <> "" ->
  (forall b, In b (books st) -> id b <> id editing) ->
  let st' := handleEditBook clk st in
  books st' = books st
  /\ isEditDialogOpen st' = false
  /\ editingBook st' = None
  /\ formData st' = blankForm clk.
Proof.
  intros He Ht Ha Hg Habsent st'.
  assert (Hm : missingRequired (formData st) = false)
    by (apply missingRequired_false; auto).
  split.
  - subst st'. rewrite (books_handleEditBook clk st editing He Hm).
    apply map_unchanged. intros b Hin.
    destruct (String.eqb_spec (id b) (id editing)) as [E | N]; [|reflexivity].
    now elim (Habsent b Hin).
  - subst st'. unfold handleEditBook. rewrite He, Hm. repeat split.
Qed.

Lemma handleEditBook_unknown_id_witness :
  let gone := mkBook "7" "Emma" "Jane Austen" "Romance" 1815 "" to_read None "2024-03-01" in
  let st := openEditDialog gone Sample.shelf in
  editingBook st = Some gone
  /\ (forall b, In b (books st) -> id b <> id gone)
  /\ books (handleEditBook Sample.clock st) = books st.
Proof.
  cbv zeta.
  set (gone := mkBook "7" "Emma" "Jane Austen" "Romance" 1815 "" to_read None "2024-03-01").
  assert (Habsent : forall b, In b (books (openEditDialog gone Sample.shelf)) ->
                              id b <> id gone)
    by (intros b [<- | [<- | []]]; discriminate).
  split; [reflexivity|]. split; [exact Habsent|].
  apply (handleEditBook_unknown_id Sample.clock (openEditDialog gone Sample.shelf) gone);
    [reflexivity | discriminate | discriminate | discriminate | exact Habsent].
Defined.

Lemma unique_id_record (bs : list Book) (a b : Book) :
  NoDup (map id bs) -> In a bs -> In b bs -> id a = id b -> a = b.
Proof.
  intros Hnodup Ha Hb Hid.
  apply In_nth_error in Ha as [i Hi]. apply In_nth_error in Hb as [j Hj].
  assert (E : i = j) by exact (unique_id_index bs i j a b Hnodup Hi Hj Hid).
  subst j. congruence.
Qed.

Lemma spread_own_fields (book : Book) :
  spread book (Form.mk (title book) (author book) (genre book) (year book)
                       (description book) (status book) (rating book))
  = book.
Proof.
  now destruct book.
Qed.

(** X5.  Opening the edit dialog on a record of the collection and
    pressing update without typing leaves the collection as it was, when
    the record has title, author and genre and no id occurs twice.  On a
    record that lacks one of the three, the update is refused and the
    dialog stays open. *)
Theorem openEditDialog_then_handleEditBook (clk : Clock) (st : State) (book : Book) :
  (complete book -> In book (books st) -> NoDup (Spec.ids st) ->
   books (handleEditBook clk (openEditDialog book st)) = books st)
  /\ (title book = "" \/ author book = "" \/ genre book = "" ->
      handleEditBook clk (openEditDialog book st) = openEditDialog book st).
Proof.
  split.
  - intros (Ht & Ha & Hg) Hin Hnodup.
    rewrite (books_handleEditBook clk (openEditDialog book st) book eq_refl)
      by (apply missingRequired_false; simpl; auto).
    simpl. apply map_unchanged. intros b Hb.
    destruct (String.eqb_spec (id b) (id book)) as [E | N]; [|reflexivity].
    rewrite (unique_id_record (books st) b book Hnodup Hb Hin E).
    apply spread_own_fields.
  - intros H. apply handleEditBook_missingRequired.
    now apply missingRequired_true.
Qed.

Lemma openEditDialog_then_handleEditBook_witness :
  complete Sample.gatsby
  /\ In Sample.gatsby (books Sample.shelf)
  /\ NoDup (Spec.ids Sample.shelf)
  /\ books (handleEditBook Sample.clock (openEditDialog Sample.gatsby Sample.shelf))
     = books Sample.shelf
  /\ (let blank := mkBook "9" "" "Nobody" "Fiction" 2000 "" read None "2024-01-01" in
      title blank = ""
      /\ handleEditBook Sample.clock (openEditDialog blank Sample.shelf)
         = openEditDialog blank Sample.shelf).
Proof.
  assert (Hc : complete Sample.gatsby) by (repeat split; discriminate).
  assert (Hin : In Sample.gatsby (books Sample.shelf)) by (left; reflexivity).
  assert (Hnodup : NoDup (Spec.ids Sample.shelf))
    by (repeat constructor; simpl; intuition discriminate).
  split; [exact Hc|]. split; [exact Hin|]. split; [exact Hnodup|]. split.
  - exact (proj1 (openEditDialog_then_handleEditBook Sample.clock Sample.shelf
                    Sample.gatsby) Hc Hin Hnodup).
  - cbv zeta. split; [reflexivity|].
    apply (proj2 (openEditDialog_then_handleEditBook Sample.clock Sample.shelf
                    (mkBook "9" "" "Nobody" "Fiction" 2000 "" read None "2024-01-01"))).
    left. reflexivity.
Defined.

(** X6.  A delete leaves the collection without the records of the given
    id, the others in their order: no record of that id is left, and the
    rest of the state is untouched. *)
Theorem handleDeleteBook_removes_id (target : string) (st : State) :
  let st' := handleDeleteBook target st in
  Spec.Kept (fun b => id b <> target) (books st) (books st')
  /\ (forall b, In b (books st') -> id b <> target /\ In b (books st))
  /\ searchTerm st' = searchTerm st
  /\ filterGenre st' = filterGenre st
  /\ filterStatus st' = filterStatus st
  /\ isAddDialogOpen st' = isAddDialogOpen st
  /\ isEditDialogOpen st' = isEditDialogOpen st
  /\ editingBook st' = editingBook st
  /\ formData st' = formData st.
Proof.
  simpl. split; [|split; [|repeat split]].
  - apply filter_Kept. intros b. now rewrite negb_true_iff, String.eqb_neq.
  - intros b Hin. apply filter_In in Hin as [Hin Hne].
    apply negb_true_iff, String.eqb_neq in Hne. now split.
Qed.

Lemma handleDeleteBook_removes_id_witness :
  In Sample.dune (books (handleDeleteBook "1" Sample.shelf))
  /\ id Sample.dune <> "1".
Proof.
  assert (Hin : In Sample.dune (books (handleDeleteBook "1" Sample.shelf)))
    by (left; reflexivity).
  split; [exact Hin|].
  exact (proj1 (proj1 (proj2 (handleDeleteBook_removes_id "1" Sample.shelf))
                      Sample.dune Hin)).
Defined.

Lemma ids_filter (target : string) (bs : list Book) :
  map id (filter (fun book => negb (String.eqb (id book) target)) bs)
  = filter (fun i => negb (String.eqb i target)) (map id bs).
Proof.
  induction bs as [|b bs IH]; simpl; [reflexivity|].
  destruct (String.eqb (id b) target); simpl; now rewrite IH.
Qed.

(** X7.  An update never changes the sequence of the ids of the
    collection, whatever the form holds; a delete keeps a collection
    without an id twice without an id twice. *)
Theorem ids_kept_by_update_and_delete (clk : Clock) (target : string) (st : State) :
  Spec.ids (handleEditBook clk st) = Spec.ids st
  /\ (NoDup (Spec.ids st) -> NoDup (Spec.ids (handleDeleteBook target st))).
Proof.
  split.
  - unfold Spec.ids, handleEditBook.
    destruct (editingBook st) as [editing|]; [|reflexivity].
    destruct (missingRequired (formData st)); [reflexivity|]. simpl.
    rewrite map_map. apply map_ext. intros b.
    now destruct (String.eqb (id b) (id editing)).
  - intros Hnodup. unfold Spec.ids, handleDeleteBook. simpl.
    rewrite ids_filter. now apply NoDup_filter.
Qed.

Lemma ids_kept_by_update_and_delete_witness :
  NoDup (Spec.ids Sample.shelf)
  /\ NoDup (Spec.ids (handleDeleteBook "2" Sample.shelf)).
Proof.
  assert (Hnodup : NoDup (Spec.ids Sample.shelf))
    by (repeat constructor; simpl; intuition discriminate).
  split; [exact Hnodup|].
  exact (proj2 (ids_kept_by_update_and_delete Sample.clock "2" Sample.shelf) Hnodup).
Defined.

Lemma Forall_filter_kept {A : Type} (P : A -> Prop) (f : A -> bool) (l : list A) :
  Forall P l -> Forall P (filter f l).
Proof.
  rewrite !Forall_forall. intros H a Ha. apply filter_In in Ha. now apply H.
Qed.

(** X8.  When every record of the collection has a title, an author and
    a genre, so has every record after an add, after an update and after a
    delete, whatever the form holds. *)
Theorem handlers_keep_required_fields (clk : Clock) (target : string) (st : State) :
  Forall complete (books st) ->
  Forall complete (books (handleAddBook clk st))
  /\ Forall complete (books (handleEditBook clk st))
  /\ Forall complete (books (handleDeleteBook target st)).
Proof.
  intros Hall. split; [|split].
  - unfold handleAddBook.
    destruct (missingRequired (formData st)) eqn:Hm; [exact Hall|]. simpl.
    apply Forall_app. split; [exact Hall|]. constructor; [|constructor].
    now apply missingRequired_false in Hm.
  - unfold handleEditBook.
    destruct (editingBook st) as [editing|]; [|exact Hall].
    destruct (missingRequired (formData st)) eqn:Hm; [exact Hall|]. simpl.
    apply Forall_map. revert Hall. apply Forall_impl. intros b Hb.
    destruct (String.eqb (id b) (id editing)); [|exact Hb].
    now apply missingRequired_false in Hm.
  - simpl. now apply Forall_filter_kept.
Qed.

Lemma handlers_keep_required_fields_witness :
  let st := setFormData Sample.untitled Sample.shelf in
  Forall complete (books st)
  /\ Forall complete (books (handleAddBook Sample.clock st)).
Proof.
  cbv zeta.
  assert (Hall : Forall complete (books (setFormData Sample.untitled Sample.shelf)))
    by (repeat constructor; discriminate).
  split; [exact Hall|].
  exact (proj1 (handlers_keep_required_fields Sample.clock "1"
                  (setFormData Sample.untitled Sample.shelf) Hall)).
Defined.

(** X21.  Two deletes give the same state in either order. *)
Theorem handleDeleteBook_commutes (a b : string) (st : State) :
  handleDeleteBook a (handleDeleteBook b st) = handleDeleteBook b (handleDeleteBook a st).
Proof.
  unfold handleDeleteBook, setBooks. simpl. f_equal.
  induction (books st) as [|x l IH]; simpl; [reflexivity|].
  destruct (String.eqb (id x) a) eqn:Ea, (String.eqb (id x) b) eqn:Eb; simpl;
    rewrite ?Ea, ?Eb; simpl; now rewrite IH.
Qed.

(** *** Statistics *)

Lemma hasStatus_partition (b : Book) :
  (if hasStatus read b then 1 else 0)
  + (if hasStatus reading b then 1 else 0)
  + (if hasStatus to_read b then 1 else 0) = 1.
Proof.
  unfold hasStatus. now destruct (status b).
Qed.

Lemma length_filter_cons {A : Type} (f : A -> bool) (a : A) (l : list A) :
  List.length (filter f (a :: l)) = (if f a then 1 else 0) + List.length (filter f l).
Proof.
  simpl. now destruct (f a).
Qed.

(** X9.  On every collection the three status counters of the
    statistics cards add up to the total. *)
Theorem summarize_partition (bs : list Book) :
  readCount (summarize bs) + readingCount (summarize bs) + toReadCount (summarize bs)
  = total (summarize bs).
Proof.
  simpl. induction bs as [|b bs IH]; [reflexivity|].
  rewrite !length_filter_cons. pose proof (hasStatus_partition b) as Hb.
  simpl List.length. lia.
Qed.

Lemma length_filter_snoc {A : Type} (f : A -> bool) (l : list A) (a : A) :
  List.length (filter f (l ++ [a])) = List.length (filter f l) + (if f a then 1 else 0).
Proof.
  rewrite filter_app, length_app. simpl. now destruct (f a).
Qed.

(** X10.  An accepted add raises the total of the statistics cards by
    one, and by one the counter of the status chosen in the form; the two
    other counters stay. *)
Theorem summarize_after_add (clk : Clock) (st : State) :
  Form.title (formData st) <> "" ->
  Form.author (formData st) <> "" ->
  Form.genre (formData st) <> "" ->
  let before := summarize (books st) in
  let after := summarize (books (handleAddBook clk st)) in
  total after = S (total before)
  /\ after =
     match Form.status (formData st) with
     | read =>
         mkSummary (S (total before)) (S (readCount before))
                   (readingCount before) (toReadCount before)
     | reading =>
         mkSummary (S (total before)) (readCount before)
                   (S (readingCount before)) (toReadCount before)
     | to_read =>
         mkSummary (S (total before)) (readCount before)
                   (readingCount before) (S (toReadCount before))
     end.
Proof.
  intros Ht Ha Hg before after. subst before after.
  rewrite (books_handleAddBook clk st) by (apply missingRequired_false; auto).
  unfold summarize. rewrite !length_filter_snoc, length_app.
  assert (Hs : forall s, hasStatus s (newBook clk (formData st))
                         = String.eqb (Status_value (Form.status (formData st)))
                                      (Status_value s)) by reflexivity.
  rewrite !Hs. simpl List.length.
  destruct (Form.status (formData st)); simpl; (split; [lia | f_equal; lia]).
Qed.

Lemma summarize_after_add_witness :
  let st := setFormData Sample.emma Sample.shelf in
  Form.title (formData st) <> ""
  /\ total (summarize (books (handleAddBook Sample.clock st))) = 3.
Proof.
  cbv zeta.
  assert (Ht : Form.title Sample.emma <> "") by discriminate.
  assert (Ha : Form.author Sample.emma <> "") by discriminate.
  assert (Hg : Form.genre Sample.emma <> "") by discriminate.
  split; [exact Ht|].
  exact (proj1 (summarize_after_add Sample.clock
                  (setFormData Sample.emma Sample.shelf) Ht Ha Hg)).
Defined.

End Handlers.

(** ** More on the filters of the rich page *)

Section Filters.

Import Library LibraryForms.

Lemma includes_empty (s : string) : JS.includes s "" = true.
Proof.
  apply includes_spec. now exists "", s.
Qed.

(** X11.  With an empty search text and "all" for genre and for status,
    the page lists the whole collection. *)
Theorem filteredBooks_without_criteria (st : State) :
  searchTerm st = "" ->
  filterGenre st = "all" ->
  filterStatus st = "all" ->
  filteredBooks st = books st.
Proof.
  intros Hs Hg Ht. unfold filteredBooks. rewrite Hs, Hg, Ht.
  apply filter_unchanged. intros b _.
  unfold matchesSearch, matchesGenre, matchesStatus. simpl.
  now rewrite includes_empty.
Qed.

Lemma filteredBooks_without_criteria_witness :
  let st := setFilterStatus "all" (setFilterGenre "all" Sample.shelf) in
  searchTerm st = "" /\ filterGenre st = "all" /\ filterStatus st = "all"
  /\ filteredBooks st = books st.
Proof.
  cbv zeta. split; [reflexivity|]. split; [reflexivity|]. split; [reflexivity|].
  apply (filteredBooks_without_criteria
           (setFilterStatus "all" (setFilterGenre "all" Sample.shelf)));
    reflexivity.
Defined.

(** X13.  The wildcard is none of the genres and none of the statuses the
    selects offer: with a genre of the list chosen, a book passes the genre
    test exactly when that is its genre, and with a status of the list
    chosen, exactly when that is its status. *)
Theorem select_filters_are_exact (b : Book) :
  (forall g, In g genres -> (matchesGenre g b = true <-> genre b = g))
  /\ (forall s, In s (map fst statuses) ->
        (matchesStatus s b = true <-> Status_value (status b) = s)).
Proof.
  split.
  - intros g Hg. unfold matchesGenre.
    assert (Hne : String.eqb g "all" = false).
    { unfold genres in Hg. simpl in Hg.
      repeat (destruct Hg as [<- | Hg]; [reflexivity|]). destruct Hg. }
    rewrite Hne. simpl. apply String.eqb_eq.
  - intros s Hs. unfold matchesStatus.
    assert (Hne : String.eqb s "all" = false).
    { simpl in Hs. repeat (destruct Hs as [<- | Hs]; [reflexivity|]). destruct Hs. }
    rewrite Hne. simpl. apply String.eqb_eq.
Qed.

Lemma select_filters_are_exact_witness :
  In "Fiction" genres
  /\ matchesGenre "Fiction" Sample.gatsby = true
  /\ genre Sample.gatsby = "Fiction".
Proof.
  assert (Hin : In "Fiction" genres) by (left; reflexivity).
  assert (Hm : matchesGenre "Fiction" Sample.gatsby = true) by reflexivity.
  split; [exact Hin|]. split; [exact Hm|].
  exact (proj1 (proj1 (select_filters_are_exact Sample.gatsby) "Fiction" Hin) Hm).
Defined.

End Filters.

(** ** The inputs and the widgets of the forms *)

Section Inputs.

Import Library LibraryForms.

Lemma digitsValue_of_uint_acc (d : Decimal.uint) (acc : positive) :
  Number.digitsValue 10 (Some (N.pos acc)) (NilEmpty.string_of_uint d)
  = Some (N.pos (Pos.of_uint_acc d acc)).
Proof.
  revert acc. induction d; intros acc; [reflexivity | ..];
    cbn [Pos.of_uint_acc]; rewrite <- IHd;
    cbn [NilEmpty.string_of_uint Number.digitsValue];
    match goal with
    | |- context [Number.radixDigit 10 ?c] =>
        let v := eval vm_compute in (Number.radixDigit 10 c) in
        change (Number.radixDigit 10 c) with v
    end;
    cbv iota; do 2 f_equal; lia.
Qed.

(** The printed digits of a positive number, read by [parseInt] after the
    sign. *)
Lemma digitsValue_to_uint (p : positive) :
  Number.digitsValue 10 None (NilEmpty.string_of_uint (Pos.to_uint p))
  = Some (N.pos p).
Proof.
  assert (Hl := to_uint_leading p).
  assert (Hv := DecimalPos.Unsigned.of_to p).
  destruct (Pos.to_uint p) as [|u|u|u|u|u|u|u|u|u|u]; try discriminate Hl;
    simpl in Hv |- *; rewrite <- Hv; apply digitsValue_of_uint_acc.
Qed.

Lemma parseInt_unsigned (c : ascii) (r : string) :
  JSON.isDigit c = true -> Ascii.eqb c "0" = false ->
  Number.parseInt (String c r)
  = match Number.digitsValue 10 None (String c r) with
    | None => Number.NaN
    | Some n => Number.Int (Z.of_N n)
    end.
Proof.
  destruct c as [[] [] [] [] [] [] [] []]; try discriminate; intros _ _;
    destruct r; reflexivity.
Qed.

Lemma parseInt_negative (c : ascii) (r : string) :
  JSON.isDigit c = true -> Ascii.eqb c "0" = false ->
  Number.parseInt (String "-" (String c r))
  = match Number.digitsValue 10 None (String c r) with
    | None => Number.NaN
    | Some n => Number.Int (- Z.of_N n)
    end.
Proof.
  destruct c as [[] [] [] [] [] [] [] []]; try discriminate; intros _ _;
    destruct r; reflexivity.
Qed.

(** [Number.parseInt(z.toString())] is [z]. *)
Lemma parseInt_Number_toString (z : Z) :
  Number.parseInt (JS.Number_toString z) = Number.Int z.
Proof.
  destruct z as [|p|p]; [reflexivity | |];
    assert (Hl := to_uint_leading p); assert (Hv := digitsValue_to_uint p);
    unfold JS.Number_toString; simpl Z.to_int; simpl NilZero.string_of_int;
    unfold NilZero.string_of_uint;
    destruct (Pos.to_uint p) as [|u|u|u|u|u|u|u|u|u|u]; try discriminate Hl;
    cbn [NilEmpty.string_of_uint] in Hv |- *;
    rewrite ?parseInt_unsigned, ?parseInt_negative, ?Hv by reflexivity;
    reflexivity.
Qed.

Lemma Number_toString_truthy (z : Z) : JS.truthy (JS.Number_toString z) = true.
Proof.
  exact (truthy_stringify (JSON.JNum z)).
Qed.

(** X14.  The year input never puts 0 in the form: a text that
    [parseInt] reads as no number or as 0, the empty text among them, sets
    the year of the clock, and the decimal of another safe integer sets
    that integer.  The other fields of the form and the collection stay. *)
Theorem onYearChange_sets_year (clk : Clock) (value : string) (st : State) :
  let st' := onYearChange clk value st in
  (fullYear clk <> 0%Z -> Form.year (formData st') <> 0%Z)
  /\ (forall z : Z,
        z <> 0%Z -> Number.isSafeInteger z = true -> value = JS.Number_toString z ->
        Form.year (formData st') = z)
  /\ (Number.parseInt value = Number.NaN \/ Number.parseInt value = Number.Int 0 ->
      Form.year (formData st') = fullYear clk)
  /\ Form.title (formData st') = Form.title (formData st)
  /\ Form.author (formData st') = Form.author (formData st)
  /\ Form.genre (formData st') = Form.genre (formData st)
  /\ Form.description (formData st') = Form.description (formData st)
  /\ Form.status (formData st') = Form.status (formData st)
  /\ Form.rating (formData st') = Form.rating (formData st)
  /\ books st' = books st.
Proof.
  simpl. split; [|split; [|split; [|repeat split]]].
  - intros Hclk. unfold Number.orElse.
    destruct (Number.parseInt value) as [|z]; [exact Hclk|].
    destruct (Z.eqb_spec z 0); [exact Hclk | assumption].
  - intros z Hz _ ->. rewrite parseInt_Number_toString. simpl.
    destruct (Z.eqb_spec z 0); [contradiction | reflexivity].
  - intros [-> | ->]; reflexivity.
Qed.

Lemma onYearChange_sets_year_witness :
  fullYear Sample.clock <> 0%Z
  /\ Number.parseInt "0" = Number.Int 0
  /\ Form.year (formData (onYearChange Sample.clock "0" Sample.shelf)) = 2023%Z
  /\ Form.year (formData (onYearChange Sample.clock "0" Sample.shelf)) <> 0%Z
  /\ Form.year (formData (onYearChange Sample.clock (JS.Number_toString 1815) Sample.shelf))
     = 1815%Z.
Proof.
  assert (Hclk : fullYear Sample.clock <> 0%Z) by discriminate.
  assert (Hzero : Number.parseInt "0" = Number.Int 0) by reflexivity.
  destruct (onYearChange_sets_year Sample.clock "0" Sample.shelf) as (H1 & _ & H3 & _).
  destruct (onYearChange_sets_year Sample.clock (JS.Number_toString 1815) Sample.shelf)
    as (_ & H2 & _).
  split; [exact Hclk|]. split; [exact Hzero|].
  split; [exact (H3 (or_intror Hzero))|]. split; [exact (H1 Hclk)|].
  apply (H2 1815%Z); [discriminate | reflexivity | reflexivity].
Defined.

(** X15.  The rating selects show the rating of the form and give it
    back: choosing the item a rating, a safe integer, is shown as sets that
    rating, and the item of no rating sets undefined, in the rich page
    (value "") and in the minimal page (value "none").  Every item of the
    select of the rich page sets undefined or an integer from 1 to 5. *)
Theorem rating_select_round_trip (rating : option Z) :
  ((forall r, rating = Some r -> Number.isSafeInteger r = true) ->
   onRatingChange (ratingSelectValue rating) = option_map Number.Int rating
   /\ AddBookForm.onRatingChange (AddBookForm.ratingSelectValue rating)
      = option_map Number.Int rating)
  /\ forall value, In value ratingItems ->
       onRatingChange value = None
       \/ exists r : Z, (1 <= r <= 5)%Z /\ onRatingChange value = Some (Number.Int r).
Proof.
  split; [intros _; split|].
  - destruct rating as [r|]; [|reflexivity]. unfold onRatingChange. simpl.
    now rewrite Number_toString_truthy, parseInt_Number_toString.
  - destruct rating as [r|]; [|reflexivity]. unfold AddBookForm.onRatingChange. simpl.
    destruct (String.eqb_spec (JS.Number_toString r) "none") as [E | _].
    + pose proof (parseInt_Number_toString r) as H. rewrite E in H. discriminate H.
    + now rewrite parseInt_Number_toString.
  - intros value Hin. simpl in Hin.
    destruct Hin as [<- | Hin]; [now left|]. right.
    destruct Hin as [<- | [<- | [<- | [<- | [<- | []]]]]];
      [exists 1%Z | exists 2%Z | exists 3%Z | exists 4%Z | exists 5%Z];
      (split; [lia | reflexivity]).
Qed.

Lemma rating_select_round_trip_witness :
  In "3" ratingItems
  /\ (onRatingChange "3" = None
      \/ exists r : Z, (1 <= r <= 5)%Z /\ onRatingChange "3" = Some (Number.Int r))
  /\ (forall r, Some 3%Z = Some r -> Number.isSafeInteger r = true)
  /\ onRatingChange (ratingSelectValue (Some 3%Z)) = Some (Number.Int 3)
  /\ AddBookForm.onRatingChange (AddBookForm.ratingSelectValue (Some 3%Z))
     = Some (Number.Int 3).
Proof.
  assert (Hin : In "3" ratingItems) by (right; right; right; left; reflexivity).
  assert (Hsafe : forall r, Some 3%Z = Some r -> Number.isSafeInteger r = true)
    by (intros r [= <-]; reflexivity).
  destruct (rating_select_round_trip (Some 3%Z)) as [Hround Hitems].
  split; [exact Hin|]. split; [exact (Hitems "3" Hin)|]. split; [exact Hsafe|].
  exact (Hround Hsafe).
Defined.

(** X16.  [renderStars] gives nothing for no rating and for the rating 0,
    and five stars otherwise: for a rating from 1 to 5 that many yellow
    stars and then the gray ones, all yellow for a rating above 5, all gray
    for one below 0. *)
Theorem renderStars_counts (r : Z) :
  renderStars None = None
  /\ renderStars (Some 0%Z) = None
  /\ ((1 <= r <= 5)%Z ->
      renderStars (Some r)
      = Some (repeat "text-sm text-yellow-400" (Z.to_nat r)
              ++ repeat "text-sm text-gray-300" (5 - Z.to_nat r))%list)
  /\ ((5 <= r)%Z -> renderStars (Some r) = Some (repeat "text-sm text-yellow-400" 5))
  /\ ((r < 0)%Z -> renderStars (Some r) = Some (repeat "text-sm text-gray-300" 5)).
Proof.
  split; [reflexivity|]. split; [reflexivity|]. split; [|split].
  - intros Hr.
    assert (H : (r = 1 \/ r = 2 \/ r = 3 \/ r = 4 \/ r = 5)%Z) by lia.
    destruct H as [-> | [-> | [-> | [-> | ->]]]]; reflexivity.
  - intros Hr. unfold renderStars, starClass.
    destruct (Z.eqb_spec r 0); [lia|]. simpl map.
    rewrite !(proj2 (Z.leb_le _ r)) by lia. reflexivity.
  - intros Hr. unfold renderStars, starClass.
    destruct (Z.eqb_spec r 0); [lia|]. simpl map.
    rewrite !(proj2 (Z.leb_gt _ r)) by lia. reflexivity.
Qed.

Lemma renderStars_counts_witness :
  (1 <= 4 <= 5)%Z
  /\ renderStars (Some 4%Z)
     = Some [ "text-sm text-yellow-400"; "text-sm text-yellow-400";
              "text-sm text-yellow-400"; "text-sm text-yellow-400";
              "text-sm text-gray-300" ].
Proof.
  assert (Hr : (1 <= 4 <= 5)%Z) by lia.
  split; [exact Hr|].
  exact (proj1 (proj2 (proj2 (renderStars_counts 4))) Hr).
Defined.

End Inputs.

(** ** More on the minimal page *)

Section MinimalStore.

Import Minimal.

Lemma IndexPage_asBook_toJSON (b : Book) : IndexPage.asBook (toJSON b) = Some b.
Proof.
  destruct b as [t a [r|]]; reflexivity.
Qed.

Lemma IndexPage_asBookList_toJSON (bs : list Book) :
  IndexPage.asBookList (map toJSON bs) = Some bs.
Proof.
  induction bs as [|b bs IH]; cbn [map IndexPage.asBookList]; [reflexivity|].
  now rewrite IndexPage_asBook_toJSON, IH.
Qed.

Lemma commit_reloads (bs : list Book) :
  exists v,
    stored (commit bs) = Some (JSON.stringify v)
    /\ IndexPage.loadBooks (stored (commit bs)) = IndexPage.Restored v
    /\ IndexPage.asBooks v = Some bs.
Proof.
  exists (JSON.JArr (map toJSON bs)). split; [reflexivity|]. split.
  - change (stored (commit bs))
      with (Some (JSON.stringify (JSON.JArr (map toJSON bs)))).
    unfold IndexPage.loadBooks.
    now rewrite truthy_stringify, parse_stringify.
  - apply IndexPage_asBookList_toJSON.
Qed.

(** X17.  The add form of the minimal page puts the submitted values at
    the end of the collection.  After an add, a delete or an edit, the text
    left in the slot is read back by the effect on mount as the collection
    the page then holds, the same books in the same order.  With nothing in
    the slot the effect leaves the collection alone: this page seeds no
    samples. *)
Theorem minimal_page_reloads (values book : Book) (bs : list Book) :
  books (AddBookForm.onSubmit values bs) = (bs ++ [values])%list
  /\ (forall p : Page,
        p = AddBookForm.onSubmit values bs
        \/ p = deleteBook book bs
        \/ p = onSubmit book bs values ->
        exists v,
          stored p = Some (JSON.stringify v)
          /\ IndexPage.loadBooks (stored p) = IndexPage.Restored v
          /\ IndexPage.asBooks v = Some (books p))
  /\ IndexPage.loadBooks None = IndexPage.Untouched
  /\ IndexPage.loadBooks (Some "") = IndexPage.Untouched.
Proof.
  split; [reflexivity|]. split; [|split; reflexivity].
  intros p [-> | [-> | ->]]; apply commit_reloads.
Qed.

Lemma minimal_page_reloads_witness :
  let emma := mkBook "Emma" "Jane Austen" None in
  exists v,
    IndexPage.loadBooks (stored (deleteBook emma Sample.rows)) = IndexPage.Restored v
    /\ IndexPage.asBooks v = Some (books (deleteBook emma Sample.rows)).
Proof.
  cbv zeta.
  destruct (proj1 (proj2 (minimal_page_reloads (mkBook "Emma" "Jane Austen" None)
                            (mkBook "Emma" "Jane Austen" None) Sample.rows))
                  (deleteBook (mkBook "Emma" "Jane Austen" None) Sample.rows)
                  (or_intror (or_introl eq_refl)))
    as (v & _ & Hload & Hbooks).
  exists v. split; [exact Hload | exact Hbooks].
Defined.

Lemma filter_Kept_in {A : Type} (f : A -> bool) (P : A -> Prop) (l : list A) :
  (forall a, In a l -> (f a = true <-> P a)) -> Spec.Kept P l (filter f l).
Proof.
  induction l as [|a l IH]; intros H; simpl; [constructor|].
  assert (IH' : Spec.Kept P l (filter f l))
    by (apply IH; intros b Hb; apply H; now right).
  destruct (f a) eqn:E.
  - apply Spec.Kept_keep; [apply H; [now left | exact E] | exact IH'].
  - apply Spec.Kept_drop; [| exact IH'].
    intros Pa. apply H in Pa; [congruence | now left].
Qed.

(** X18.  When every record other than the row's differs from it in the
    title and in the author, [deleteBook] removes the row's record and
    nothing else: the other records stay, in their order. *)
Theorem deleteBook_exact_when_unshared (book : Book) (bs : list Book) :
  (forall b, In b bs -> b <> book ->
             title b <> title book /\ author b <> author book) ->
  Spec.Kept (fun b => b <> book) bs (books (deleteBook book bs)).
Proof.
  intros Hunshared. unfold deleteBook, commit. simpl.
  apply filter_Kept_in. intros b Hin. rewrite keptByDelete_spec. split.
  - intros [Ht _] ->. now apply Ht.
  - intros Hne. now apply Hunshared.
Qed.

Lemma deleteBook_exact_when_unshared_witness :
  let dune := mkBook "Dune" "Frank Herbert" (Some 5%Z) in
  (forall b, In b Sample.rows -> b <> dune ->
             title b <> title dune /\ author b <> author dune)
  /\ Spec.Kept (fun b => b <> dune) Sample.rows (books (deleteBook dune Sample.rows)).
Proof.
  cbv zeta.
  assert (H : forall b, In b Sample.rows -> b <> mkBook "Dune" "Frank Herbert" (Some 5%Z) ->
                        title b <> title (mkBook "Dune" "Frank Herbert" (Some 5%Z))
                        /\ author b <> author (mkBook "Dune" "Frank Herbert" (Some 5%Z))).
  { intros b [<- | [<- | [<- | []]]] Hne.
    - split; discriminate.
    - now elim Hne.
    - split; discriminate. }
  split; [exact H|].
  exact (deleteBook_exact_when_unshared (mkBook "Dune" "Frank Herbert" (Some 5%Z))
           Sample.rows H).
Defined.

(** X19.  When every record of the collection passes [bookSchema] and so
    do the submitted values, every record passes it after an add, after an
    edit and after a delete. *)
Theorem bookSchema_kept (values book : Book) (bs : list Book) :
  Forall (fun b => bookSchema.accepts b = true) bs ->
  bookSchema.accepts values = true ->
  Forall (fun b => bookSchema.accepts b = true) (books (AddBookForm.onSubmit values bs))
  /\ Forall (fun b => bookSchema.accepts b = true) (books (onSubmit book bs values))
  /\ Forall (fun b => bookSchema.accepts b = true) (books (deleteBook book bs)).
Proof.
  intros Hall Hvalues. split; [|split].
  - simpl. apply Forall_app. split; [exact Hall|]. now constructor.
  - simpl. apply Forall_map. revert Hall. apply Forall_impl. intros b Hb.
    now destruct (String.eqb (title b) (title book) && String.eqb (author b) (author book)).
  - simpl. now apply Forall_filter_kept.
Qed.

Lemma bookSchema_kept_witness :
  let emma := mkBook "Emma" "Jane Austen" None in
  let ulysses := mkBook "Ulysses" "James Joyce" (Some 3%Z) in
  Forall (fun b => bookSchema.accepts b = true) Sample.rows
  /\ bookSchema.accepts ulysses = true
  /\ Forall (fun b => bookSchema.accepts b = true)
            (books (AddBookForm.onSubmit ulysses Sample.rows)).
Proof.
  cbv zeta.
  assert (Hall : Forall (fun b => bookSchema.accepts b = true) Sample.rows)
    by (repeat constructor).
  assert (Hv : bookSchema.accepts (mkBook "Ulysses" "James Joyce" (Some 3%Z)) = true)
    by reflexivity.
  split; [exact Hall|]. split; [exact Hv|].
  exact (proj1 (bookSchema_kept (mkBook "Ulysses" "James Joyce" (Some 3%Z))
                  (mkBook "Emma" "Jane Austen" None) Sample.rows Hall Hv)).
Defined.

(** X20.  Submitting the edit form of a row with the values it was opened
    with leaves the collection as it was, when every record with the row's
    title and author is the row's record. *)
Theorem onSubmit_unchanged_values (book : Book) (bs : list Book) :
  (forall b, In b bs -> title b = title book -> author b = author book -> b = book) ->
  books (onSubmit book bs book) = bs.
Proof.
  intros Hsame. simpl. apply map_unchanged. intros b Hin.
  destruct (String.eqb_spec (title b) (title book)) as [Et | Nt]; [|reflexivity].
  destruct (String.eqb_spec (author b) (author book)) as [Ea | Na]; [|reflexivity].
  simpl. symmetry. now apply Hsame.
Qed.

Lemma onSubmit_unchanged_values_witness :
  let emma := mkBook "Emma" "Jane Austen" None in
  (forall b, In b Sample.rows -> title b = title emma -> author b = author emma ->
             b = emma)
  /\ books (onSubmit emma Sample.rows emma) = Sample.rows.
Proof.
  cbv zeta.
  assert (H : forall b, In b Sample.rows ->
                        title b = title (mkBook "Emma" "Jane Austen" None) ->
                        author b = author (mkBook "Emma" "Jane Austen" None) ->
                        b = mkBook "Emma" "Jane Austen" None).
  { intros b [<- | [<- | [<- | []]]] Ht Ha;
      [reflexivity | discriminate Ht | discriminate Ht]. }
  split; [exact H|].
  exact (onSubmit_unchanged_values (mkBook "Emma" "Jane Austen" None) Sample.rows H).
Defined.

End MinimalStore.
